(** * bring-recipes: the static recipe-site generator [tools/build.py]

    A shallow embedding of the build script and the properties its
    specification states about it.

    Conventions of the model.
    - A Python [str] is a Rocq [string] holding its UTF-8 bytes; this is
      the byte sequence [write_text(encoding="utf-8")] puts on disk and
      the one [urllib.parse.quote] percent-encodes.
    - A value returned by [json.loads] is a [json]; a dict is its list of
      items in insertion order.  JSON numbers with a fraction or an
      exponent are not represented.
    - A computation that may raise is a [result]; the file tree is a
      finite map from paths to the contents of the regular files there,
      threaded through the writing functions.
    - A path is the tuple of components that [pathlib] keeps: [..] stays
      a component and is not resolved, and two paths are the same file
      when they are the same tuple.  The tree has no links, and a
      statement that tells files apart names them by plain components.
    - [mkdir] and [write_text] are taken to succeed.  Where the
      operating system refuses one (a slug with a NUL byte, a directory
      in the place of the file to write) the script raises and the
      model's run returns; what a run leaves in the tree is therefore
      stated for runs that return, and an exception that a theorem
      concludes is one the code of the script raises itself, not one
      of these calls. *)

From Stdlib Require Import Ascii String List ZArith Lia Bool DecimalString Sorting.Sorted.
From stdpp Require Import base option list strings gmap fin_maps.

Local Open Scope stdpp_scope.
Set Warnings "-register-all".

(** ** Strings *)

(** The double-quote character, U+0022. *)
Definition dq : string := String "034" EmptyString.
(** The line feed, U+000A. *)
Definition nl : string := String "010" EmptyString.

(** [sub in s] on two Python strings. *)
Fixpoint str_contains (sub s : string) : bool :=
  String.prefix sub s ||
  match s with
  | EmptyString => false
  | String _ s' => str_contains sub s'
  end.

(** [s] has [sub] as a contiguous piece. *)
Definition occurs_in (sub s : string) : Prop :=
  exists pre post, s = pre +:+ sub +:+ post.

(** ** Exceptions and results *)

Inductive exn : Type :=
| ValueError (msg : string)
| TypeError
| KeyError (key : string)
| AttributeError
| InputError.         (* raised by [read_text] or [json.loads] *)

Inductive result (A : Type) : Type :=
| Ok (a : A)
| Raise (e : exn).
Arguments Ok {A} a.
Arguments Raise {A} e.

#[export] Instance result_ret : MRet result := fun A a => Ok a.
#[export] Instance result_bind : MBind result := fun A B f r =>
  match r with
  | Ok a => f a
  | Raise e => Raise e
  end.

(** ** Values of [json.loads] *)

Inductive json : Type :=
| JNull
| JBool (b : bool)
| JNum (n : Z)
| JStr (s : string)
| JArr (items : list json)
| JObj (items : list (string * json)).

(** [d[key]] looked up in the items of a dict. *)
Fixpoint dict_lookup (key : string) (items : list (string * json)) : option json :=
  match items with
  | [] => None
  | (k, v) :: rest => if String.eqb k key then Some v else dict_lookup key rest
  end.

(** [x == key] for a string [key]. *)
Definition eq_str (key : string) (x : json) : bool :=
  match x with
  | JStr s => String.eqb s key
  | _ => false
  end.

(** [key in data]: dict membership tests the keys, list membership the
    elements, string membership the substrings; other values are not
    containers. *)
Definition py_in (key : string) (data : json) : result bool :=
  match data with
  | JObj items => Ok (bool_decide (is_Some (dict_lookup key items)))
  | JArr l => Ok (existsb (eq_str key) l)
  | JStr s => Ok (str_contains key s)
  | _ => Raise TypeError
  end.

(** [r[key]]. *)
Definition getitem (r : json) (key : string) : result json :=
  match r with
  | JObj items =>
      match dict_lookup key items with
      | Some v => Ok v
      | None => Raise (KeyError key)
      end
  | _ => Raise TypeError
  end.

(** [r.get(key)]. *)
Definition get (r : json) (key : string) : result json :=
  match r with
  | JObj items => Ok (default JNull (dict_lookup key items))
  | _ => Raise AttributeError
  end.

(** Truth value of a Python object in an [if]. *)
Definition truthy (v : json) : bool :=
  match v with
  | JNull => false
  | JBool b => b
  | JNum n => negb (n =? 0)%Z
  | JStr s => negb (String.eqb s "")
  | JArr l => match l with [] => false | _ => true end
  | JObj l => match l with [] => false | _ => true end
  end.

(** ** Paths

    A [Path] is the tuple [PurePosixPath.parts]: the root, when there is
    one, then the components. *)

Definition Path : Type := list string.

(** The components of a string given to [/]: split at the slashes, empty
    components and [.] dropped. *)
Fixpoint components_aux (cur : string) (s : string) : list string :=
  let close := if String.eqb cur "" || String.eqb cur "." then [] else [cur] in
  match s with
  | EmptyString => close
  | String c s' =>
      if Ascii.eqb c "/" then close ++ components_aux "" s'
      else components_aux (cur +:+ String c EmptyString) s'
  end.
Definition components (s : string) : list string := components_aux "" s.

(** The root of a string path ([posixpath.splitroot]): none, [/], or [//]
    for exactly two leading slashes. *)
Definition root_of (s : string) : option string :=
  match s with
  | String "/" (String "/" (String "/" _)) => Some "/"
  | String "/" (String "/" _) => Some "//"
  | String "/" _ => Some "/"
  | _ => None
  end.

(** [p / s]: a rooted [s] replaces [p]. *)
Definition path_div (p : Path) (s : string) : Path :=
  match root_of s with
  | Some r => r :: components s
  | None => p ++ components s
  end.

(** [str(p)]. *)
Definition path_str (p : Path) : string :=
  match p with
  | [] => "."
  | r :: rest =>
      if String.prefix "/" r then r +:+ String.concat "/" rest
      else String.concat "/" p
  end.

(** [sorted] on paths of one directory compares the file names. *)
Fixpoint insert_sorted {A} (x : string * A) (l : list (string * A)) : list (string * A) :=
  match l with
  | [] => [x]
  | y :: l' => if String.ltb y.1 x.1 then y :: insert_sorted x l' else x :: l
  end.
Definition sorted {A} (l : list (string * A)) : list (string * A) :=
  foldr insert_sorted [] l.

(** [Path.glob("*.json")] over the entries of a directory. *)
Definition ends_with (suffix s : string) : bool :=
  String.eqb (String.substring (String.length s - String.length suffix)
                               (String.length suffix) s) suffix
  && (String.length suffix <=? String.length s).
Definition glob_json {A} (entries : list (string * A)) : list (string * A) :=
  List.filter (fun e => ends_with ".json" e.1) entries.

(** ** Library functions on strings *)

(** [s.replace(c, rep)] for a one-character [c]. *)
Fixpoint replace_char (c : ascii) (rep : string) (s : string) : string :=
  match s with
  | EmptyString => EmptyString
  | String a s' =>
      (if Ascii.eqb a c then rep else String a EmptyString) +:+ replace_char c rep s'
  end.

(** [html.escape(s)], with its default [quote=True]. *)
Definition escape (s : string) : string :=
  let s := replace_char "&" "&amp;" s in
  let s := replace_char "<" "&lt;" s in
  let s := replace_char ">" "&gt;" s in
  let s := replace_char "034" "&quot;" s in
  replace_char "'" "&#x27;" s.

(** The characters [urllib.parse.quote] never encodes: ASCII letters,
    digits and [_.-~]. *)
Definition always_safe (c : ascii) : bool :=
  let n := nat_of_ascii c in
  ((65 <=? n) && (n <=? 90)) || ((97 <=? n) && (n <=? 122)) ||
  ((48 <=? n) && (n <=? 57)) ||
  Ascii.eqb c "_" || Ascii.eqb c "." || Ascii.eqb c "-" || Ascii.eqb c "~".

Definition hex_upper (n : nat) : ascii :=
  if n <? 10 then ascii_of_nat (48 + n) else ascii_of_nat (55 + n).

(** ['%{:02X}'.format(b)]. *)
Definition percent_byte (c : ascii) : string :=
  let n := nat_of_ascii c in
  String "%" (String (hex_upper (n / 16)) (String (hex_upper (n mod 16)) EmptyString)).

(** [urllib.parse.quote(s, safe="")]: every byte of the UTF-8 encoding
    that is not always safe becomes [%XX]. *)
Fixpoint quote (s : string) : string :=
  match s with
  | EmptyString => EmptyString
  | String c s' =>
      (if always_safe c then String c EmptyString else percent_byte c) +:+ quote s'
  end.

Definition hex_val (c : ascii) : option nat :=
  let n := nat_of_ascii c in
  if (48 <=? n) && (n <=? 57) then Some (n - 48)
  else if (65 <=? n) && (n <=? 70) then Some (n - 55)
  else if (97 <=? n) && (n <=? 102) then Some (n - 87)
  else None.

(** Percent-decoding ([urllib.parse.unquote]): [%] followed by two
    hexadecimal digits is the byte they denote, anything else stands for
    itself. *)
Fixpoint unquote (s : string) : string :=
  match s with
  | EmptyString => EmptyString
  | String c s' =>
      match s' with
      | String h (String l s'') =>
          match Ascii.eqb c "%", hex_val h, hex_val l with
          | true, Some a, Some b => String (ascii_of_nat (16 * a + b)) (unquote s'')
          | _, _, _ => String c (unquote s')
          end
      | _ => String c (unquote s')
      end
  end.

(** The value of parameter [name] in the query of a URL: the query
    starts after the first [?], its pairs are separated by [&]. *)
Fixpoint split_on (sep : ascii) (cur : string) (s : string) : list string :=
  match s with
  | EmptyString => [cur]
  | String c s' =>
      if Ascii.eqb c sep then cur :: split_on sep "" s'
      else split_on sep (cur +:+ String c EmptyString) s'
  end.

Fixpoint strip_prefix (p s : string) : option string :=
  match p, s with
  | EmptyString, _ => Some s
  | String a p', String b s' => if Ascii.eqb a b then strip_prefix p' s' else None
  | _, _ => None
  end.

Definition query_param (name url : string) : option string :=
  match split_on "?" "" url with
  | _ :: q :: _ =>
      head (omap (strip_prefix (name +:+ "=")) (split_on "&" "" q))
  | _ => None
  end.

(** [s.splitlines()]: the boundaries are LF, CR, CR LF, VT, FF, FS, GS,
    RS, and in UTF-8 NEL (C2 85), LS (E2 80 A8) and PS (E2 80 A9). *)
Definition is_break (c : ascii) : bool :=
  let n := nat_of_ascii c in
  (n =? 10) || (n =? 11) || (n =? 12) || (n =? 13) || (n =? 28) || (n =? 29) || (n =? 30).

Fixpoint splitlines_aux (cur : string) (s : string) : list string :=
  match s with
  | EmptyString => if String.eqb cur "" then [] else [cur]
  | String c s' =>
      match s' with
      | String c1 s1 =>
          if (nat_of_ascii c =? 13) && (nat_of_ascii c1 =? 10)
          then cur :: splitlines_aux "" s1
          else if (nat_of_ascii c =? 194) && (nat_of_ascii c1 =? 133)
          then cur :: splitlines_aux "" s1
          else
            match s1 with
            | String c2 s2 =>
                if (nat_of_ascii c =? 226) && (nat_of_ascii c1 =? 128)
                   && ((nat_of_ascii c2 =? 168) || (nat_of_ascii c2 =? 169))
                then cur :: splitlines_aux "" s2
                else if is_break c then cur :: splitlines_aux "" s'
                else splitlines_aux (cur +:+ String c EmptyString) s'
            | _ =>
                if is_break c then cur :: splitlines_aux "" s'
                else splitlines_aux (cur +:+ String c EmptyString) s'
            end
      | _ =>
          if is_break c then cur :: splitlines_aux "" s'
          else splitlines_aux (cur +:+ String c EmptyString) s'
      end
  end.
Definition splitlines (s : string) : list string := splitlines_aux "" s.

(** The code points of a string, each as a string of its UTF-8 bytes:
    what [for x in s] yields. *)
Definition is_continuation (c : ascii) : bool :=
  let n := nat_of_ascii c in (128 <=? n) && (n <? 192).
Fixpoint code_points_aux (cur : string) (s : string) : list string :=
  match s with
  | EmptyString => if String.eqb cur "" then [] else [cur]
  | String c s' =>
      if is_continuation c || String.eqb cur ""
      then code_points_aux (cur +:+ String c EmptyString) s'
      else cur :: code_points_aux (String c EmptyString) s'
  end.
Definition code_points (s : string) : list string := code_points_aux "" s.

(** [str(n)] for an [int]. *)
Definition str_int (n : Z) : string := DecimalString.NilZero.string_of_int (Z.to_int n).

(** ** [json.dumps(obj, ensure_ascii=False, indent=2)] *)

Definition hex_lower (n : nat) : ascii :=
  if n <? 10 then ascii_of_nat (48 + n) else ascii_of_nat (87 + n).

(** One character of a string literal ([ESCAPE_DCT] of [json.encoder]):
    the backslash, the double quote and the controls below U+0020 are
    escaped, everything else is copied. *)
Definition escape_json_char (c : ascii) : string :=
  let n := nat_of_ascii c in
  if n =? 92 then "\\"
  else if n =? 34 then "\" +:+ dq
  else if n =? 8 then "\b"
  else if n =? 12 then "\f"
  else if n =? 10 then "\n"
  else if n =? 13 then "\r"
  else if n =? 9 then "\t"
  else if n <? 32 then
    "\u00" +:+ String (hex_lower (n / 16)) (String (hex_lower (n mod 16)) EmptyString)
  else String c EmptyString.

Fixpoint escape_json (s : string) : string :=
  match s with
  | EmptyString => EmptyString
  | String c s' => escape_json_char c +:+ escape_json s'
  end.

Definition encode_basestring (s : string) : string := dq +:+ escape_json s +:+ dq.

(** [' ' * 2 * level]. *)
Fixpoint indent_of (level : nat) : string :=
  match level with
  | O => ""
  | S n => "  " +:+ indent_of n
  end.

Fixpoint dumps_at (level : nat) (v : json) : string :=
  let newline_indent := nl +:+ indent_of (S level) in
  match v with
  | JNull => "null"
  | JBool true => "true"
  | JBool false => "false"
  | JNum n => str_int n
  | JStr s => encode_basestring s
  | JArr [] => "[]"
  | JArr l =>
      "[" +:+ newline_indent
      +:+ String.concat ("," +:+ newline_indent) (map (dumps_at (S level)) l)
      +:+ nl +:+ indent_of level +:+ "]"
  | JObj [] => "{}"
  | JObj items =>
      "{" +:+ newline_indent
      +:+ String.concat ("," +:+ newline_indent)
            (map (fun kv => encode_basestring kv.1 +:+ ": " +:+ dumps_at (S level) kv.2) items)
      +:+ nl +:+ indent_of level +:+ "}"
  end.

Definition dumps (v : json) : string := dumps_at 0 v.

(** ** [str.format] with keyword arguments

    Replacement fields are plain names, as in both templates; [{{] and
    [}}] stand for a brace. *)

Inductive fmt_state : Type :=
| InText
| AfterOpen
| InField (name : string)
| AfterClose.

Fixpoint kw_lookup (name : string) (kwargs : list (string * string)) : option string :=
  match kwargs with
  | [] => None
  | (k, v) :: rest => if String.eqb k name then Some v else kw_lookup name rest
  end.

Fixpoint format_aux (kwargs : list (string * string)) (st : fmt_state) (s : string)
  : result string :=
  match s with
  | EmptyString =>
      match st with
      | InText => Ok ""
      | _ => Raise (ValueError "invalid format string")
      end
  | String c s' =>
      match st with
      | InText =>
          if Ascii.eqb c "{" then format_aux kwargs AfterOpen s'
          else if Ascii.eqb c "}" then format_aux kwargs AfterClose s'
          else rest ← format_aux kwargs InText s'; Ok (String c rest)
      | AfterOpen =>
          if Ascii.eqb c "{" then rest ← format_aux kwargs InText s'; Ok (String c rest)
          else if Ascii.eqb c "}" then Raise (KeyError "")
          else format_aux kwargs (InField (String c EmptyString)) s'
      | InField name =>
          if Ascii.eqb c "}" then
            match kw_lookup name kwargs with
            | Some v => rest ← format_aux kwargs InText s'; Ok (v +:+ rest)
            | None => Raise (KeyError name)
            end
          else format_aux kwargs (InField (name +:+ String c EmptyString)) s'
      | AfterClose =>
          if Ascii.eqb c "}" then rest ← format_aux kwargs InText s'; Ok (String c rest)
          else Raise (ValueError "Single '}' encountered in format string")
      end
  end.

Definition format (template : string) (kwargs : list (string * string)) : result string :=
  format_aux kwargs InText template.

(** ** Module constants *)

Definition REPO_PAGES_BASE : string := "https://Sabsx.github.io/bring-recipes".
Definition ASSETS_IMAGES : string := "assets/images".

(** The lines of a triple-quoted literal, each closed by a line feed. *)
Fixpoint unlines (ls : list string) : string :=
  match ls with
  | [] => ""
  | l :: ls' => l +:+ nl +:+ unlines ls'
  end.

Definition HTML_TEMPLATE : string := unlines [
  "<!doctype html>";
  "<html lang=" +:+ dq +:+ "de" +:+ dq +:+ ">";
  "<head>";
  "  <meta charset=" +:+ dq +:+ "utf-8" +:+ dq +:+ " />";
  "  <meta name=" +:+ dq +:+ "viewport" +:+ dq +:+ " content=" +:+ dq +:+ "width=device-width,initial-scale=1" +:+ dq +:+ " />";
  "  <title>{title}</title>";
  "  <meta name=" +:+ dq +:+ "description" +:+ dq +:+ " content=" +:+ dq +:+ "{desc}" +:+ dq +:+ ">";
  "  <link rel=" +:+ dq +:+ "stylesheet" +:+ dq +:+ " href=" +:+ dq +:+ "../assets/style.css" +:+ dq +:+ " />";
  "";
  "  <script type=" +:+ dq +:+ "application/ld+json" +:+ dq +:+ ">";
  "{jsonld}";
  "  </script>";
  "</head>";
  "<body>";
  "  <main class=" +:+ dq +:+ "wrap" +:+ dq +:+ ">";
  "    <h1>{title}</h1>";
  "    <div class=" +:+ dq +:+ "sub" +:+ dq +:+ ">{meta}</div>";
  "";
  "  <div class=" +:+ dq +:+ "btnrow" +:+ dq +:+ ">";
  "    <a class=" +:+ dq +:+ "btn" +:+ dq +:+ " href=" +:+ dq +:+ "{bring_link}" +:+ dq +:+ ">🛒 In Bring! importieren</a>";
  "    <a class=" +:+ dq +:+ "btn" +:+ dq +:+ " href=" +:+ dq +:+ "../" +:+ dq +:+ ">← zurück</a>";
  "  </div>";
  "";
  "    {hero_img}";
  "";
  "    <section class=" +:+ dq +:+ "grid" +:+ dq +:+ ">";
  "      <article class=" +:+ dq +:+ "card" +:+ dq +:+ ">";
  "        <div class=" +:+ dq +:+ "hd" +:+ dq +:+ ">🧾 Zutaten</div>";
  "        <div class=" +:+ dq +:+ "bd" +:+ dq +:+ ">";
  "          <ul>";
  "{ingredients_html}";
  "          </ul>";
  "        </div>";
  "      </article>";
  "";
  "      <article class=" +:+ dq +:+ "card" +:+ dq +:+ ">";
  "        <div class=" +:+ dq +:+ "hd" +:+ dq +:+ ">👨‍🍳 Zubereitung</div>";
  "        <div class=" +:+ dq +:+ "bd" +:+ dq +:+ ">";
  "          <ol>";
  "{instructions_html}";
  "          </ol>";
  "        </div>";
  "      </article>";
  "    </section>";
  "";
  "    <footer>";
  "      <a class=" +:+ dq +:+ "btn" +:+ dq +:+ " href=" +:+ dq +:+ "../" +:+ dq +:+ ">← zurück</a>";
  "    </footer>";
  "  </main>";
  "</body>";
  "</html>"
].

Definition INDEX_TEMPLATE : string := unlines [
  "<!doctype html>";
  "<html lang=" +:+ dq +:+ "de" +:+ dq +:+ ">";
  "<head>";
  "  <meta charset=" +:+ dq +:+ "utf-8" +:+ dq +:+ " />";
  "  <meta name=" +:+ dq +:+ "viewport" +:+ dq +:+ " content=" +:+ dq +:+ "width=device-width,initial-scale=1" +:+ dq +:+ " />";
  "  <title>Rezepte</title>";
  "  <link rel=" +:+ dq +:+ "stylesheet" +:+ dq +:+ " href=" +:+ dq +:+ "./assets/style.css" +:+ dq +:+ " />";
  "</head>";
  "<body>";
  "  <main class=" +:+ dq +:+ "wrap" +:+ dq +:+ ">";
  "    <h1>Rezepte</h1>";
  "    <div class=" +:+ dq +:+ "sub" +:+ dq +:+ ">Private Rezeptseiten für Bring!-Import</div>";
  "";
  "    <section class=" +:+ dq +:+ "card" +:+ dq +:+ ">";
  "      <div class=" +:+ dq +:+ "hd" +:+ dq +:+ ">📚 Liste</div>";
  "      <div class=" +:+ dq +:+ "bd" +:+ dq +:+ ">";
  "        <ul>";
  "{links_html}";
  "        </ul>";
  "      </div>";
  "    </section>";
  "";
  "    <footer>";
  "      <span class=" +:+ dq +:+ "muted" +:+ dq +:+ ">Tipp:</span> Öffne ein Rezept und tippe auf <strong>„In Bring! importieren“</strong>.";
  "    </footer>";
  "  </main>";
  "</body>";
  "</html>"
].

(** The literal text of a template between its replacement fields. *)
Fixpoint literal_chunks (cur : string) (in_field : bool) (s : string) : list string :=
  match s with
  | EmptyString => [cur]
  | String c s' =>
      if in_field then
        if Ascii.eqb c "}" then literal_chunks "" false s' else literal_chunks cur true s'
      else if Ascii.eqb c "{" then cur :: literal_chunks "" true s'
      else literal_chunks (cur +:+ String c EmptyString) false s'
  end.

Definition html_chunks : list string :=
  Eval vm_compute in literal_chunks "" false HTML_TEMPLATE.
Definition index_chunks : list string :=
  Eval vm_compute in literal_chunks "" false INDEX_TEMPLATE.
Definition html_lit (i : nat) : string := nth i html_chunks "".
Definition index_lit (i : nat) : string := nth i index_chunks "".

(** ** The build *)

(** [for x in v]: a list yields its elements, a string its characters, a
    dict its keys. *)
Definition py_iter (v : json) : result (list json) :=
  match v with
  | JArr l => Ok l
  | JStr s => Ok (map JStr (code_points s))
  | JObj items => Ok (map (fun kv => JStr kv.1) items)
  | _ => Raise TypeError
  end.

(** [escape(x)] calls [x.replace], which only a string has. *)
Definition py_escape (x : json) : result string :=
  match x with
  | JStr s => Ok (escape s)
  | _ => Raise AttributeError
  end.

(** [f(x) for x in xs], consumed in order. *)
Fixpoint map_result {A B} (f : A -> result B) (xs : list A) : result (list B) :=
  match xs with
  | [] => Ok []
  | x :: xs' => y ← f x; ys ← map_result f xs'; Ok (y :: ys)
  end.

(** [v is not None and v != ""]. *)
Definition kept (v : json) : bool :=
  match v with
  | JNull => false
  | JStr s => negb (String.eqb s "")
  | _ => true
  end.

Definition clean_none (d : list (string * json)) : list (string * json) :=
  List.filter (fun kv => kept kv.2) d.

(** The file tree written by the build. *)
Abbreviation files := (gmap Path string).

(** The local variables of [build_recipe_page] when it reaches the
    [write_text]. *)
Record page : Type := mkPage {
  slug : json;
  title : json;
  desc : string;
  recipe_url : string;
  bring_link : string;
  image_url : json;
  jsonld_obj : list (string * json);
  jsonld : string;
  ingredients_html : string;
  instructions_html : string;
  meta : string;
  hero_img : string;
  html : string
}.

Section Build.

(** [ROOT = Path(__file__).resolve().parents[1]]: where the repository
    is checked out. *)
Variable ROOT : Path.

(** [str(v)] of a list or a dict, left to the interpreter. *)
Variable py_repr : json -> string.

Definition RECIPES_DIR : Path := path_div ROOT "recipes".
Definition DOCS_DIR : Path := path_div ROOT "docs".

(** What an f-string puts for [{v}]. *)
Definition py_str (v : json) : string :=
  match v with
  | JNull => "None"
  | JBool true => "True"
  | JBool false => "False"
  | JNum n => str_int n
  | JStr s => s
  | _ => py_repr v
  end.

Definition REQUIRED : list string := ["slug"; "name"; "ingredients"; "instructions"].

(** The inner [for key in (...)] loop of [load_recipes]. *)
Fixpoint check_keys (p : Path) (data : json) (keys : list string) : result unit :=
  match keys with
  | [] => Ok tt
  | key :: keys' =>
      b ← py_in key data;
      if negb b then Raise (ValueError (path_str p +:+ ": missing '" +:+ key +:+ "'"))
      else check_keys p data keys'
  end.

(** The outer loop; an entry carries what
    [json.loads(p.read_text(encoding="utf-8"))] gives for it. *)
Fixpoint load_loop (paths : list (string * result json)) (out : list json)
  : result (list json) :=
  match paths with
  | [] => Ok out
  | (fname, content) :: paths' =>
      data ← content;
      _ ← check_keys (RECIPES_DIR ++ [fname]) data REQUIRED;
      load_loop paths' (out ++ [data])
  end.

Definition load_recipes (entries : list (string * result json)) : result (list json) :=
  load_loop (sorted (glob_json entries)) [].

(** [build_recipe_page] up to and including [html = ...]. *)
Definition render (r : json) : result page :=
  slug ← getitem r "slug";
  title ← getitem r "name";
  let desc := "Privates Rezept: " +:+ py_str title in
  let recipe_url := REPO_PAGES_BASE +:+ "/" +:+ py_str slug +:+ "/" in
  let encoded_url := quote recipe_url in
  let bring_link :=
    "https://api.getbring.com/rest/bringrecipes/deeplink"
    +:+ "?url=" +:+ encoded_url +:+ "&source=web" in
  img ← get r "image_file";
  image_url ←
    (if truthy img then
       f ← getitem r "image_file";
       Ok (JStr (REPO_PAGES_BASE +:+ "/" +:+ ASSETS_IMAGES +:+ "/" +:+ py_str f))
     else Ok JNull);
  yield ← get r "yield";
  ingredients ← getitem r "ingredients";
  instructions ← getitem r "instructions";
  steps ← py_iter instructions;
  let jsonld_obj := clean_none [
    ("@context", JStr "https://schema.org");
    ("@type", JStr "Recipe");
    ("name", title);
    ("image", if truthy image_url then image_url else JNull);
    ("recipeYield", yield);
    ("recipeIngredient", ingredients);
    ("recipeInstructions",
       JArr (map (fun t => JObj [("@type", JStr "HowToStep"); ("text", t)]) steps))
  ] in
  let jsonld := dumps (JObj jsonld_obj) in
  let jsonld := String.concat nl (map (fun line => "  " +:+ line) (splitlines jsonld)) in
  xs ← py_iter ingredients;
  lis ← map_result (fun x => e ← py_escape x; Ok ("            <li>" +:+ e +:+ "</li>")) xs;
  let ingredients_html := String.concat nl lis in
  xs ← py_iter instructions;
  lis ← map_result (fun x => e ← py_escape x; Ok ("            <li>" +:+ e +:+ "</li>")) xs;
  let instructions_html := String.concat nl lis in
  let meta_parts := [] in
  y ← get r "yield";
  meta_parts ←
    (if truthy y then v ← getitem r "yield"; Ok (meta_parts ++ ["🍽️ " +:+ py_str v])
     else Ok meta_parts);
  t ← get r "time";
  meta_parts ←
    (if truthy t then v ← getitem r "time"; Ok (meta_parts ++ ["⏱️ " +:+ py_str v])
     else Ok meta_parts);
  let meta :=
    match meta_parts with
    | [] => "Bring!-Import kompatibel"
    | _ => String.concat " • " meta_parts
    end in
  img ← get r "image_file";
  hero_img ←
    (if truthy img then
       f ← getitem r "image_file";
       src ← py_escape f;
       alt ← py_escape title;
       Ok ("<img class=" +:+ dq +:+ "hero" +:+ dq +:+ " src=" +:+ dq +:+ "../"
           +:+ ASSETS_IMAGES +:+ "/" +:+ src +:+ dq +:+ " alt=" +:+ dq +:+ alt
           +:+ dq +:+ " />")
     else Ok "");
  e_title ← py_escape title;
  html ← format HTML_TEMPLATE [
    ("title", e_title);
    ("desc", escape desc);
    ("meta", escape meta);
    ("hero_img", hero_img);
    ("jsonld", jsonld);
    ("ingredients_html", ingredients_html);
    ("instructions_html", instructions_html);
    ("bring_link", bring_link)
  ];
  Ok (mkPage slug title desc recipe_url bring_link image_url jsonld_obj jsonld
             ingredients_html instructions_html meta hero_img html).

(** [DOCS_DIR / slug / "index.html"], as [pathlib] builds it: a rooted
    slug replaces [DOCS_DIR], empty and [.] components vanish, [..] is
    kept.  A slug that is not a string has no [/]. *)
Definition page_path (slug : json) : result Path :=
  match slug with
  | JStr s => Ok (path_div (path_div DOCS_DIR s) "index.html")
  | _ => Raise TypeError
  end.

(** [build_recipe_page]: every exception of the rendering leaves the tree
    as it was; then [out_dir.mkdir(parents=True, exist_ok=True)], which
    adds no file, and the [write_text], both taken to succeed. *)
Definition build_recipe_page (r : json) (fs : files) : result unit * files :=
  match render r with
  | Raise e => (Raise e, fs)
  | Ok pg =>
      match page_path (slug pg) with
      | Raise e => (Raise e, fs)
      | Ok p => (Ok tt, <[p := html pg]> fs)
      end
  end.

(** [build_index] up to and including [html = ...]. *)
Definition index_link (r : json) : result string :=
  slug ← getitem r "slug";
  name ← getitem r "name";
  e_slug ← py_escape slug;
  e_name ← py_escape name;
  Ok ("          <li><a href=" +:+ dq +:+ "./" +:+ e_slug +:+ "/" +:+ dq +:+ ">"
      +:+ e_name +:+ "</a></li>").

Definition render_index (recipes : list json) : result string :=
  links ← map_result index_link recipes;
  let links_html := String.concat nl links in
  format INDEX_TEMPLATE [("links_html", links_html)].

(** [build_index]: the page is written once every link line is built;
    the [write_text] is taken to succeed. *)
Definition build_index (recipes : list json) (fs : files) : result unit * files :=
  match render_index recipes with
  | Raise e => (Raise e, fs)
  | Ok html => (Ok tt, <[path_div DOCS_DIR "index.html" := html]> fs)
  end.

(** The [for r in recipes: build_recipe_page(r)] of [main]. *)
Fixpoint build_pages (recipes : list json) (fs : files) : result unit * files :=
  match recipes with
  | [] => (Ok tt, fs)
  | r :: recipes' =>
      match build_recipe_page r fs with
      | (Ok _, fs') => build_pages recipes' fs'
      | (Raise e, fs') => (Raise e, fs')
      end
  end.

(** [main]; its value is the line it prints. *)
Definition main (entries : list (string * result json)) (fs : files)
  : result string * files :=
  match load_recipes entries with
  | Raise e => (Raise e, fs)
  | Ok recipes =>
      match build_pages recipes fs with
      | (Raise e, fs1) => (Raise e, fs1)
      | (Ok _, fs1) =>
          match build_index recipes fs1 with
          | (Raise e, fs2) => (Raise e, fs2)
          | (Ok _, fs2) =>
              (Ok ("Built " +:+ str_int (Z.of_nat (length recipes)) +:+ " recipes into "
                   +:+ path_str DOCS_DIR), fs2)
          end
      end
  end.

End Build.

(** ** Records of the data model

    The specification's recipe record: four required fields and three
    optional strings.  [represents r v] says that the dict [r] holds the
    record [v]; an optional field that is [None] is a missing key or a
    [null]. *)

Record recipe : Type := mkRecipe {
  r_slug : string;
  r_name : string;
  r_ingredients : list string;
  r_instructions : list string;
  r_yield : option string;
  r_time : option string;
  r_image_file : option string
}.

Definition opt_json (o : option string) : json :=
  match o with
  | Some s => JStr s
  | None => JNull
  end.

Definition represents (r : json) (v : recipe) : Prop :=
  getitem r "slug" = Ok (JStr (r_slug v)) ∧
  getitem r "name" = Ok (JStr (r_name v)) ∧
  getitem r "ingredients" = Ok (JArr (map JStr (r_ingredients v))) ∧
  getitem r "instructions" = Ok (JArr (map JStr (r_instructions v))) ∧
  get r "yield" = Ok (opt_json (r_yield v)) ∧
  get r "time" = Ok (opt_json (r_time v)) ∧
  get r "image_file" = Ok (opt_json (r_image_file v)).

Definition nonempty (o : option string) : option string :=
  match o with
  | Some s => if String.eqb s "" then None else Some s
  | None => None
  end.

Definition meta_line (y t : option string) : string :=
  match y, t with
  | Some y, Some t => "🍽️ " +:+ y +:+ " • " +:+ "⏱️ " +:+ t
  | Some y, None => "🍽️ " +:+ y
  | None, Some t => "⏱️ " +:+ t
  | None, None => "Bring!-Import kompatibel"
  end.

Definition li (x : string) : string := "            <li>" +:+ escape x +:+ "</li>".

Definition how_to_step (t : json) : json := JObj [("@type", JStr "HowToStep"); ("text", t)].

Definition hero_element (f alt : string) : string :=
  "<img class=" +:+ dq +:+ "hero" +:+ dq +:+ " src=" +:+ dq +:+ "../assets/images/"
  +:+ escape f +:+ dq +:+ " alt=" +:+ dq +:+ escape alt +:+ dq +:+ " />".

Definition indent_lines (s : string) : string :=
  String.concat nl (map (fun line => "  " +:+ line) (splitlines s)).

(** ** Vocabulary of the statements *)

Definition BRING_ENDPOINT : string := "https://api.getbring.com/rest/bringrecipes/deeplink".

(** The text of the [ValueError] of [load_recipes]. *)
Definition missing_msg (p : Path) (key : string) : string :=
  path_str p +:+ ": missing '" +:+ key +:+ "'".

Fixpoint no_char (c : ascii) (s : string) : bool :=
  match s with
  | EmptyString => true
  | String a s' => negb (Ascii.eqb a c) && no_char c s'
  end.

Definition quote_char (c : ascii) : string :=
  if always_safe c then String c EmptyString else percent_byte c.

(** The files of a list of writes, put into a tree in order. *)
Definition write_all (ws : list (Path * string)) (fs : files) : files :=
  foldl (fun m w => <[w.1 := w.2]> m) fs ws.

(** What the loader reads from a file that is a dict with every
    required key. *)
Definition complete (content : result json) : Prop :=
  ∃ items, content = Ok (JObj items) ∧
           ∀ key, key ∈ REQUIRED → is_Some (dict_lookup key items).

(** A slug that is one path component: no slash, not empty, not [.]. *)
Definition is_dir_name (s : string) : Prop :=
  root_of s = None ∧ components s = [s].

(** Landmarks of [HTML_TEMPLATE] around its replacement fields. *)
Definition SCRIPT_OPEN : string :=
  "  <script type=" +:+ dq +:+ "application/ld+json" +:+ dq +:+ ">" +:+ nl.
Definition SCRIPT_CLOSE : string := nl +:+ "  </script>".
Definition SUB_OPEN : string := "<div class=" +:+ dq +:+ "sub" +:+ dq +:+ ">".
Definition HREF_OPEN : string := "<a class=" +:+ dq +:+ "btn" +:+ dq +:+ " href=" +:+ dq.
Definition UL_OPEN : string := "          <ul>" +:+ nl.
Definition UL_CLOSE : string := nl +:+ "          </ul>".
Definition OL_OPEN : string := "          <ol>" +:+ nl.
Definition OL_CLOSE : string := nl +:+ "          </ol>".
Definition HERO_BEFORE : string := "  </div>" +:+ nl +:+ nl +:+ "    ".
Definition HERO_AFTER : string := nl +:+ nl +:+ "    <section class=" +:+ dq +:+ "grid" +:+ dq +:+ ">".

(** ** Sample inputs *)

Definition sample_root : Path := ["/"; "srv"; "bring-recipes"].
Definition sample_repr (v : json) : string := "".

Definition soup_json : json := JObj [
  ("slug", JStr "suppe");
  ("name", JStr "Suppe");
  ("ingredients", JArr [JStr "1 Zwiebel"; JStr "Salz & Pfeffer"]);
  ("instructions", JArr [JStr "Zwiebel schneiden"; JStr "20 min kochen"]);
  ("yield", JStr "4 Portionen");
  ("image_file", JStr "soup.jpg")].

Definition soup : recipe :=
  mkRecipe "suppe" "Suppe" ["1 Zwiebel"; "Salz & Pfeffer"]
           ["Zwiebel schneiden"; "20 min kochen"] (Some "4 Portionen") None (Some "soup.jpg").

Definition stew_json : json := JObj [
  ("slug", JStr "suppe");
  ("name", JStr "Eintopf");
  ("ingredients", JArr [JStr "Linsen"]);
  ("instructions", JArr [JStr "kochen"])].

Definition stew : recipe := mkRecipe "suppe" "Eintopf" ["Linsen"] ["kochen"] None None None.

Definition null_record : json := JObj [
  ("slug", JNull); ("name", JNull); ("ingredients", JNull); ("instructions", JNull)].

Definition script_record : json := JObj [
  ("slug", JStr "x");
  ("name", JStr "</script>");
  ("ingredients", JArr []);
  ("instructions", JArr [])].

(** U+2028 LINE SEPARATOR, in UTF-8. *)
Definition LINE_SEPARATOR : string :=
  String "226" (String "128" (String "168" EmptyString)).

Definition separator_record : json := JObj [
  ("slug", JStr "x");
  ("name", JStr "Suppe");
  ("ingredients", JArr []);
  ("instructions", JArr []);
  ("image_file", JStr ("a" +:+ LINE_SEPARATOR +:+ "b.jpg"))].

Definition first_blank_json : json := JObj [
  ("slug", JStr "");
  ("name", JStr "Erste");
  ("ingredients", JArr []);
  ("instructions", JArr [])].

Definition second_blank_json : json := JObj [
  ("slug", JStr "");
  ("name", JStr "Zweite");
  ("ingredients", JArr []);
  ("instructions", JArr [])].

Definition no_name_json : json := JObj [
  ("slug", JStr "kuchen");
  ("ingredients", JArr [JStr "Mehl"]);
  ("instructions", JArr [JStr "backen"])].


(** ** Vocabulary of the further properties *)

(** Byte-wise order of two file names. *)
Definition name_le (a b : string) : Prop := String.leb a b = true.

(** A name of one file or directory: one path component, and not the
    parent directory. *)
Definition plain_name (s : string) : Prop := is_dir_name s ∧ s ≠ "..".

(** What [html.escape] makes of one character. *)
Definition escape_char (c : ascii) : string :=
  if Ascii.eqb c "&" then "&amp;"
  else if Ascii.eqb c "<" then "&lt;"
  else if Ascii.eqb c ">" then "&gt;"
  else if Ascii.eqb c "034" then "&quot;"
  else if Ascii.eqb c "'" then "&#x27;"
  else String c EmptyString.

(** No byte of [s] is a control character below U+0020. *)
Fixpoint no_control (s : string) : bool :=
  match s with
  | EmptyString => true
  | String c s' => (32 <=? nat_of_ascii c) && no_control s'
  end.

(** The line of the index for one record. *)
Definition index_line (sn : string * string) : string :=
  "          <li><a href=" +:+ dq +:+ "./" +:+ escape sn.1 +:+ "/" +:+ dq +:+ ">"
  +:+ escape sn.2 +:+ "</a></li>".

(** The record [r] has the strings [sn.1] and [sn.2] as slug and name. *)
Definition has_slug_and_name (r : json) (sn : string * string) : Prop :=
  getitem r "slug" = Ok (JStr sn.1) ∧ getitem r "name" = Ok (JStr sn.2).

Definition INDEX_UL_OPEN : string := "        <ul>" +:+ nl.
Definition INDEX_UL_CLOSE : string := nl +:+ "        </ul>".

Definition JSONLD_KEYS : list string :=
  ["@context"; "@type"; "name"; "image"; "recipeYield"; "recipeIngredient";
   "recipeInstructions"].

Definition TITLE_OPEN : string := "  <title>".
Definition DESC_OPEN : string :=
  "  <meta name=" +:+ dq +:+ "description" +:+ dq +:+ " content=" +:+ dq.
Definition H1_OPEN : string := "    <h1>".

(** One [<li>] line of a page, for any value the loop meets. *)
Definition li_of (x : json) : result string :=
  e ← py_escape x; Ok ("            <li>" +:+ e +:+ "</li>").

(** [c], followed by [rest], is a line boundary of [splitlines] other
    than the line feed. *)
Definition other_break (c : ascii) (rest : string) : bool :=
  let n := nat_of_ascii c in
  (n =? 11) || (n =? 12) || (n =? 13) || (n =? 28) || (n =? 29) || (n =? 30)
  || match rest with
     | String c1 rest1 =>
         ((n =? 194) && (nat_of_ascii c1 =? 133))
         || match rest1 with
            | String c2 _ =>
                (n =? 226) && (nat_of_ascii c1 =? 128)
                && ((nat_of_ascii c2 =? 168) || (nat_of_ascii c2 =? 169))
            | EmptyString => false
            end
     | EmptyString => false
     end.

(** The line feed is the only line boundary in [s]. *)
Fixpoint lf_only (s : string) : bool :=
  match s with
  | EmptyString => true
  | String c s' => negb (other_break c s') && lf_only s'
  end.

(** [s] is not empty and does not end with a line feed. *)
Fixpoint ends_in_text (s : string) : bool :=
  match s with
  | EmptyString => false
  | String c EmptyString => negb (nat_of_ascii c =? 10)
  | String _ s' => ends_in_text s'
  end.

Definition letters_json : json := JObj [
  ("slug", JStr "tee");
  ("name", JStr "Tee");
  ("ingredients", JStr "ab");
  ("instructions", JArr [JStr "aufgießen"])].

Definition stale_path : Path := DOCS_DIR sample_root ++ ["alt"; "index.html"].

(** * Properties *)

Ltac step := cbn [mbind result_bind mret result_ret negb].

(** Takes [x ← e; k = Ok _] apart: [e] returned a value. *)
Ltac invert_bind H :=
  lazymatch type of H with
  | (mbind ?f (Ok ?a)) = Ok _ => change (mbind f (Ok a)) with (f a) in H; cbv beta in H
  | (mbind ?f ?x) = Ok _ =>
      let E := fresh "E" in
      destruct x as [?a|?e] eqn:E;
      [change (mbind f (Ok a)) with (f a) in H; cbv beta in H | discriminate H]
  end.

Ltac ends_with_literal s suf :=
  exists (String.substring 0 (String.length s - String.length suf) s);
  vm_compute; reflexivity.
Ltac starts_with_literal s pre :=
  exists (String.substring (String.length pre) (String.length s - String.length pre) s);
  vm_compute; reflexivity.

(** ** Strings and results *)

Lemma app_cons_s (x : ascii) (a b : string) : String x a +:+ b = String x (a +:+ b).
Proof. reflexivity. Qed.

Lemma app_nil_l_s (a : string) : "" +:+ a = a.
Proof. reflexivity. Qed.

Lemma app_assoc_s (a b c : string) : (a +:+ b) +:+ c = a +:+ (b +:+ c).
Proof. induction a as [|x a IH]; [reflexivity|]. by rewrite !app_cons_s, IH. Qed.

Lemma app_nil_r_s (a : string) : a +:+ "" = a.
Proof. induction a as [|x a IH]; [reflexivity|]. by rewrite app_cons_s, IH. Qed.

Lemma bind_ok {A B} (a : A) (f : A -> result B) : (Ok a ≫= f) = f a.
Proof. reflexivity. Qed.

Lemma bind_raise {A B} (e : exn) (f : A -> result B) : (Raise e ≫= f) = Raise e.
Proof. reflexivity. Qed.

(** ** Sorting and globbing *)

Lemma elem_of_insert_sorted {A} (x y : string * A) l :
  y ∈ insert_sorted x l ↔ y = x ∨ y ∈ l.
Proof.
  induction l as [|z l IH]; cbn.
  - rewrite list_elem_of_singleton, elem_of_nil. tauto.
  - destruct (String.ltb z.1 x.1); rewrite ?elem_of_cons, ?IH; tauto.
Qed.

Lemma elem_of_sorted {A} (y : string * A) l : y ∈ sorted l ↔ y ∈ l.
Proof.
  induction l as [|z l IH]; cbn; [done|].
  rewrite elem_of_insert_sorted, IH, elem_of_cons. tauto.
Qed.

Lemma elem_of_glob_json {A} (y : string * A) l :
  y ∈ glob_json l ↔ y ∈ l ∧ ends_with ".json" y.1 = true.
Proof.
  unfold glob_json. rewrite !list_elem_of_In, filter_In. done.
Qed.

(** ** Percent-encoding *)

Lemma quote_cons c s : quote (String c s) = quote_char c +:+ quote s.
Proof. reflexivity. Qed.

Lemma unquote_quote_char c s : unquote (quote_char c +:+ s) = String c (unquote s).
Proof.
  destruct c as [[] [] [] [] [] [] [] []];
    try (vm_compute quote_char; reflexivity);
    destruct s as [|h [|l s]]; reflexivity.
Qed.

Lemma unquote_quote s : unquote (quote s) = s.
Proof.
  induction s as [|c s IH]; [reflexivity|].
  by rewrite quote_cons, unquote_quote_char, IH.
Qed.

Lemma no_char_app c a b : no_char c (a +:+ b) = no_char c a && no_char c b.
Proof.
  induction a as [|x a IH]; [reflexivity|].
  rewrite app_cons_s. cbn. rewrite IH. by rewrite andb_assoc.
Qed.

Lemma no_char_quote_char x c :
  always_safe x = false → Ascii.eqb x "%" = false → no_char x (quote_char c) = true.
Proof.
  intros Hs Hp.
  assert (Hsafe : ∀ y, always_safe y = true → Ascii.eqb y x = false).
  { intros y Hy. destruct (Ascii.eqb_spec y x) as [->|]; congruence. }
  unfold quote_char. destruct (always_safe c) eqn:Hc.
  - cbn. by rewrite (Hsafe c Hc).
  - unfold percent_byte. cbn [no_char].
    rewrite Ascii.eqb_sym, Hp.
    rewrite !Hsafe; [reflexivity| |].
    + clear. destruct c as [[] [] [] [] [] [] [] []]; reflexivity.
    + clear. destruct c as [[] [] [] [] [] [] [] []]; reflexivity.
Qed.

Lemma no_char_quote x s :
  always_safe x = false → Ascii.eqb x "%" = false → no_char x (quote s) = true.
Proof.
  intros Hs Hp. induction s as [|c s IH]; [reflexivity|].
  by rewrite quote_cons, no_char_app, no_char_quote_char, IH.
Qed.

Lemma split_on_no_char sep cur s :
  no_char sep s = true → split_on sep cur s = [cur +:+ s].
Proof.
  revert cur. induction s as [|c s IH]; intros cur Hn; cbn.
  - by rewrite app_nil_r_s.
  - cbn in Hn. apply andb_true_iff in Hn as [Hc Hn].
    apply negb_true_iff in Hc. rewrite Hc, IH by done.
    by rewrite app_assoc_s.
Qed.

Lemma split_on_app sep cur a b :
  no_char sep a = true →
  split_on sep cur (a +:+ String sep b) = (cur +:+ a) :: split_on sep "" b.
Proof.
  revert cur. induction a as [|c a IH]; intros cur Hn.
  - rewrite app_nil_l_s. cbn [split_on]. by rewrite Ascii.eqb_refl, app_nil_r_s.
  - cbn in Hn. apply andb_true_iff in Hn as [Hc Hn]. apply negb_true_iff in Hc.
    rewrite app_cons_s. cbn [split_on]. rewrite Hc, IH by done.
    by rewrite app_assoc_s.
Qed.

Lemma strip_prefix_app p s : strip_prefix p (p +:+ s) = Some s.
Proof.
  induction p as [|c p IH]; [by destruct s|].
  rewrite app_cons_s. cbn [strip_prefix]. by rewrite Ascii.eqb_refl.
Qed.

Lemma query_param_bring_link u :
  query_param "url" (BRING_ENDPOINT +:+ "?url=" +:+ quote u +:+ "&source=web")
  = Some (quote u).
Proof.
  unfold query_param.
  change (BRING_ENDPOINT +:+ "?url=" +:+ quote u +:+ "&source=web")
    with (BRING_ENDPOINT +:+ String "?" ("url=" +:+ quote u +:+ "&source=web")).
  rewrite split_on_app by reflexivity.
  rewrite split_on_no_char.
  2:{ rewrite !no_char_app, no_char_quote by reflexivity. reflexivity. }
  rewrite app_nil_l_s.
  change ("url=" +:+ quote u +:+ "&source=web")
    with ("url=" +:+ quote u +:+ String "&" "source=web").
  rewrite <- app_assoc_s.
  rewrite split_on_app.
  2:{ rewrite no_char_app, no_char_quote by reflexivity. reflexivity. }
  rewrite split_on_no_char by reflexivity.
  rewrite app_nil_l_s. cbn [omap list_omap].
  change ("url" +:+ "=") with "url=".
  rewrite strip_prefix_app. reflexivity.
Qed.

(** ** Templates *)

Lemma format_html (title desc meta hero_img jsonld ing ins link : string) :
  format HTML_TEMPLATE [("title", title); ("desc", desc); ("meta", meta); ("hero_img", hero_img);
    ("jsonld", jsonld); ("ingredients_html", ing); ("instructions_html", ins); ("bring_link", link)]
  = Ok (html_lit 0 +:+ title +:+ html_lit 1 +:+ desc +:+ html_lit 2 +:+ jsonld +:+ html_lit 3 +:+ title +:+ html_lit 4 +:+ meta
        +:+ html_lit 5 +:+ link +:+ html_lit 6 +:+ hero_img +:+ html_lit 7 +:+ ing +:+ html_lit 8 +:+ ins +:+ html_lit 9).
Proof. vm_compute. reflexivity. Qed.

Lemma format_index (links : string) :
  format INDEX_TEMPLATE [("links_html", links)] = Ok (index_lit 0 +:+ links +:+ index_lit 1).
Proof. vm_compute. reflexivity. Qed.

Lemma get_getitem r key v : get r key = Ok v → v ≠ JNull → getitem r key = Ok v.
Proof.
  destruct r; cbn; try discriminate.
  destruct (dict_lookup key items); cbn; congruence.
Qed.

Lemma map_result_li (xs : list string) :
  map_result (fun x => e ← py_escape x; Ok ("            <li>" +:+ e +:+ "</li>")) (map JStr xs)
  = Ok (map li xs).
Proof.
  induction xs as [|x xs IH]; [reflexivity|].
  cbn [map map_result]. rewrite IH. reflexivity.
Qed.

Lemma occurs_in_app_r x t s : occurs_in x s → occurs_in x (t +:+ s).
Proof.
  intros (pre & post & ->). exists (t +:+ pre), post. by rewrite app_assoc_s.
Qed.

Lemma occurs_in_between a b v x y a' b' post :
  a = a' +:+ x → b = y +:+ b' →
  occurs_in (x +:+ v +:+ y) (a +:+ v +:+ b +:+ post).
Proof.
  intros -> ->. exists a', (b' +:+ post). by rewrite !app_assoc_s.
Qed.

Lemma lit2_ends : ∃ p, html_lit 2 = p +:+ SCRIPT_OPEN.
Proof. ends_with_literal (html_lit 2) SCRIPT_OPEN. Qed.
Lemma lit3_starts : ∃ q, html_lit 3 = SCRIPT_CLOSE +:+ q.
Proof. starts_with_literal (html_lit 3) SCRIPT_CLOSE. Qed.
Lemma lit4_ends : ∃ p, html_lit 4 = p +:+ SUB_OPEN.
Proof. ends_with_literal (html_lit 4) SUB_OPEN. Qed.
Lemma lit5_starts : ∃ q, html_lit 5 = "</div>" +:+ q.
Proof. starts_with_literal (html_lit 5) "</div>". Qed.
Lemma lit5_ends : ∃ p, html_lit 5 = p +:+ HREF_OPEN.
Proof. ends_with_literal (html_lit 5) HREF_OPEN. Qed.
Lemma lit6_starts : ∃ q, html_lit 6 = dq +:+ q.
Proof. starts_with_literal (html_lit 6) dq. Qed.
Lemma lit6_ends : ∃ p, html_lit 6 = p +:+ HERO_BEFORE.
Proof. ends_with_literal (html_lit 6) HERO_BEFORE. Qed.
Lemma lit7_starts : ∃ q, html_lit 7 = HERO_AFTER +:+ q.
Proof. starts_with_literal (html_lit 7) HERO_AFTER. Qed.
Lemma lit7_ends : ∃ p, html_lit 7 = p +:+ UL_OPEN.
Proof. ends_with_literal (html_lit 7) UL_OPEN. Qed.
Lemma lit8_split : ∃ m, html_lit 8 = UL_CLOSE +:+ m +:+ OL_OPEN.
Proof.
  exists (String.substring (String.length UL_CLOSE)
            (String.length (html_lit 8) - String.length UL_CLOSE - String.length OL_OPEN) (html_lit 8)).
  vm_compute. reflexivity.
Qed.
Lemma lit9_starts : ∃ q, html_lit 9 = OL_CLOSE +:+ q.
Proof. starts_with_literal (html_lit 9) OL_CLOSE. Qed.

Lemma dict_lookup_clean_none_kept key x d :
  dict_lookup key (clean_none d) = Some x → kept x = true.
Proof.
  induction d as [|[k v] d IH]; [discriminate|].
  unfold clean_none. cbn [List.filter snd]. fold (clean_none d).
  destruct (kept v) eqn:Hv; [|exact IH].
  cbn [dict_lookup]. destruct (String.eqb k key); [|exact IH].
  intros E. by simplify_eq.
Qed.

Lemma kept_spec x : kept x = true → x ≠ JNull ∧ x ≠ JStr "".
Proof.
  destruct x as [| | |s| |]; cbn; try by (intros _; split).
  - discriminate.
  - destruct s; [discriminate|]. by intros _; split.
Qed.

(** ** Writes *)

Lemma write_all_app (ws1 ws2 : list (Path * string)) (fs : files) : write_all (ws1 ++ ws2) fs = write_all ws2 (write_all ws1 fs).
Proof. apply foldl_app. Qed.

Lemma write_all_union (ws : list (Path * string)) (fs : files) : write_all ws fs = write_all ws ∅ ∪ fs.
Proof.
  revert fs. induction ws as [|[p s] ws IH]; intros fs.
  - cbn. by rewrite (left_id_L ∅ (∪)).
  - change (write_all ((p, s) :: ws) fs) with (write_all ws (<[p:=s]> fs)).
    change (write_all ((p, s) :: ws) ∅) with (write_all ws (<[p:=s]> ∅)).
    rewrite IH, (IH (<[p:=s]> ∅)).
    rewrite <- (assoc_L (∪)). f_equal.
    rewrite insert_empty. apply insert_union_singleton_l.
Qed.

Lemma write_all_twice (ws : list (Path * string)) (fs : files) : write_all ws (write_all ws fs) = write_all ws fs.
Proof.
  rewrite (write_all_union ws (write_all ws fs)), (write_all_union ws fs).
  by rewrite (assoc_L (∪)), (idemp_L (∪)).
Qed.

Section Properties.

Variable ROOT : Path.
Variable py_repr : json -> string.

(** ** The loader *)

Lemma check_keys_cons p data key keys :
  check_keys p data (key :: keys) =
  (b ← py_in key data;
   if negb b then Raise (ValueError (missing_msg p key)) else check_keys p data keys).
Proof. reflexivity. Qed.

Lemma load_loop_cons fname content paths out :
  load_loop ROOT ((fname, content) :: paths) out =
  (data ← content;
   _ ← check_keys (RECIPES_DIR ROOT ++ [fname]) data REQUIRED;
   load_loop ROOT paths (out ++ [data])).
Proof. reflexivity. Qed.

Lemma check_keys_dict p items keys :
  (check_keys p (JObj items) keys = Ok tt ∧
     ∀ key, key ∈ keys → is_Some (dict_lookup key items)) ∨
  (∃ key, key ∈ keys ∧ dict_lookup key items = None ∧
     check_keys p (JObj items) keys = Raise (ValueError (missing_msg p key))).
Proof.
  induction keys as [|k keys IH].
  - left. split; [done|]. intros key Hk. by apply elem_of_nil in Hk.
  - rewrite check_keys_cons. unfold py_in.
    destruct (dict_lookup k items) as [v|] eqn:Hk.
    + rewrite bool_decide_eq_true_2 by eauto. step.
      destruct IH as [[-> Hall]|(key & Hin & Hnone & ->)].
      * left. split; [done|]. intros key [->|?]%elem_of_cons; eauto.
      * right. exists key. rewrite elem_of_cons. eauto.
    + rewrite bool_decide_eq_false_2 by (intros [? ?]; done). step.
      right. exists k. rewrite elem_of_cons. eauto.
Qed.

Lemma check_keys_ok p data keys :
  check_keys p data keys = Ok tt → ∀ key, key ∈ keys → py_in key data = Ok true.
Proof.
  induction keys as [|k keys IH]; intros Hc key Hin.
  - by apply elem_of_nil in Hin.
  - rewrite check_keys_cons in Hc.
    destruct (py_in k data) as [[|]|e] eqn:Hk; step; cbn in Hc; try discriminate.
    apply elem_of_cons in Hin as [->|Hin]; [done|]. by apply IH.
Qed.

Lemma load_loop_ok paths out rs :
  load_loop ROOT paths out = Ok rs →
  ∃ new, rs = out ++ new ∧
    ∀ r, r ∈ new → ∀ key, key ∈ REQUIRED → py_in key r = Ok true.
Proof.
  revert out. induction paths as [|[fname content] paths IH]; intros out Hl.
  - exists []. rewrite app_nil_r. cbn in Hl. split; [congruence|].
    intros r Hr. by apply elem_of_nil in Hr.
  - rewrite load_loop_cons in Hl.
    destruct content as [data|e]; [|discriminate]. step. rewrite bind_ok in Hl.
    destruct (check_keys _ data REQUIRED) as [[]|e] eqn:Hc; [|discriminate].
    rewrite bind_ok in Hl.
    apply IH in Hl as (new & -> & Hnew).
    exists (data :: new). rewrite <- app_assoc. split; [done|].
    intros r [->|Hr]%elem_of_cons; [|by apply Hnew].
    by apply check_keys_ok with (1 := Hc).
Qed.

Lemma load_loop_offender paths out fname items key :
  (fname, Ok (JObj items)) ∈ paths → key ∈ REQUIRED → dict_lookup key items = None →
  ∃ e, load_loop ROOT paths out = Raise e.
Proof.
  revert out. induction paths as [|[f content] paths IH]; intros out Hin Hk Hnone.
  - by apply elem_of_nil in Hin.
  - rewrite load_loop_cons.
    destruct content as [data|e]; [rewrite bind_ok|rewrite bind_raise; eauto].
    destruct (check_keys _ data REQUIRED) as [[]|e] eqn:Hc;
      [rewrite bind_ok|rewrite bind_raise; eauto].
    apply elem_of_cons in Hin as [Heq|Hin]; [|by eapply IH].
    simplify_eq.
    destruct (check_keys_dict (RECIPES_DIR ROOT ++ [f]) items REQUIRED)
      as [[_ Hall]|(k & _ & _ & Hr)]; [|congruence].
    destruct (Hall key Hk) as [? ?]. congruence.
Qed.

Lemma load_loop_dicts paths out :
  (∀ e, e ∈ paths → ∃ items, e.2 = Ok (JObj items)) →
  (∃ rs, load_loop ROOT paths out = Ok rs) ∨
  (∃ fname items key,
      (fname, Ok (JObj items)) ∈ paths ∧ key ∈ REQUIRED ∧ dict_lookup key items = None ∧
      load_loop ROOT paths out
      = Raise (ValueError (missing_msg (RECIPES_DIR ROOT ++ [fname]) key))).
Proof.
  revert out. induction paths as [|[f content] paths IH]; intros out Hall.
  - left. cbn. eauto.
  - destruct (Hall (f, content)) as [items Hi]; [apply elem_of_cons; by left|].
    cbn in Hi. subst content. rewrite load_loop_cons, bind_ok.
    destruct (check_keys_dict (RECIPES_DIR ROOT ++ [f]) items REQUIRED)
      as [[-> _]|(k & Hk & Hnone & ->)].
    + rewrite bind_ok.
      destruct (IH (out ++ [JObj items])) as [?|(fname & its & key & Hin & ? & ? & ?)].
      * intros e He. apply Hall. apply elem_of_cons. by right.
      * by left.
      * right. exists fname, its, key. rewrite elem_of_cons. eauto.
    + right. exists f, items, k. rewrite elem_of_cons. eauto.
Qed.
(** ** Rendering *)

Lemma render_represents r v :
  represents r v →
  ∃ pg, render py_repr r = Ok pg ∧
    slug pg = JStr (r_slug v) ∧
    title pg = JStr (r_name v) ∧
    recipe_url pg = REPO_PAGES_BASE +:+ "/" +:+ r_slug v +:+ "/" ∧
    bring_link pg = "https://api.getbring.com/rest/bringrecipes/deeplink" +:+ "?url="
                    +:+ quote (recipe_url pg) +:+ "&source=web" ∧
    jsonld_obj pg = clean_none [
      ("@context", JStr "https://schema.org");
      ("@type", JStr "Recipe");
      ("name", JStr (r_name v));
      ("image", opt_json ((fun f => REPO_PAGES_BASE +:+ "/assets/images/" +:+ f)
                            <$> nonempty (r_image_file v)));
      ("recipeYield", opt_json (r_yield v));
      ("recipeIngredient", JArr (map JStr (r_ingredients v)));
      ("recipeInstructions", JArr (map how_to_step (map JStr (r_instructions v))))] ∧
    jsonld pg = indent_lines (dumps (JObj (jsonld_obj pg))) ∧
    ingredients_html pg = String.concat nl (map li (r_ingredients v)) ∧
    instructions_html pg = String.concat nl (map li (r_instructions v)) ∧
    meta pg = meta_line (nonempty (r_yield v)) (nonempty (r_time v)) ∧
    hero_img pg = match nonempty (r_image_file v) with
                  | Some f => hero_element f (r_name v)
                  | None => ""
                  end ∧
    html pg = html_lit 0 +:+ escape (r_name v) +:+ html_lit 1 +:+ escape ("Privates Rezept: " +:+ r_name v)
              +:+ html_lit 2 +:+ jsonld pg +:+ html_lit 3 +:+ escape (r_name v) +:+ html_lit 4 +:+ escape (meta pg)
              +:+ html_lit 5 +:+ bring_link pg +:+ html_lit 6 +:+ hero_img pg +:+ html_lit 7 +:+ ingredients_html pg
              +:+ html_lit 8 +:+ instructions_html pg +:+ html_lit 9.
Proof.
  intros (Hslug & Hname & Hing & Hins & Hy & Ht & Hi).
  assert (Gy : ∀ s, r_yield v = Some s → getitem r "yield" = Ok (JStr s)).
  { intros s E. rewrite E in Hy. by apply get_getitem. }
  assert (Gt : ∀ s, r_time v = Some s → getitem r "time" = Ok (JStr s)).
  { intros s E. rewrite E in Ht. by apply get_getitem. }
  assert (Gi : ∀ s, r_image_file v = Some s → getitem r "image_file" = Ok (JStr s)).
  { intros s E. rewrite E in Hi. by apply get_getitem. }
  unfold render. rewrite Hslug, Hname, Hing, Hins, Hy, Ht, Hi. step.
  destruct (r_image_file v) as [[|ci fi]|] eqn:Ei;
  destruct (r_yield v) as [[|cy fy]|] eqn:Ey;
  destruct (r_time v) as [[|ct ft]|] eqn:Et;
  rewrite ?(Gy _ eq_refl), ?(Gt _ eq_refl), ?(Gi _ eq_refl);
  cbn [opt_json truthy String.eqb negb py_iter]; step;
  rewrite !map_result_li; step;
  cbn [py_escape]; step; rewrite format_html; step;
  (eexists; split; [reflexivity|]);
  cbn [slug title recipe_url bring_link jsonld_obj jsonld ingredients_html instructions_html
       meta hero_img html py_str nonempty String.eqb fmap option_fmap option_map opt_json
       truthy negb];
  repeat split; try reflexivity.
Qed.
Lemma render_inv r pg :
  render py_repr r = Ok pg →
  getitem r "slug" = Ok (slug pg) ∧
  getitem r "name" = Ok (title pg) ∧
  bring_link pg = BRING_ENDPOINT +:+ "?url="
                  +:+ quote (REPO_PAGES_BASE +:+ "/" +:+ py_str py_repr (slug pg) +:+ "/")
                  +:+ "&source=web" ∧
  (∃ yield ingredients instructions steps,
      get r "yield" = Ok yield ∧
      getitem r "ingredients" = Ok ingredients ∧
      getitem r "instructions" = Ok instructions ∧
      py_iter instructions = Ok steps ∧
      jsonld_obj pg = clean_none [
        ("@context", JStr "https://schema.org");
        ("@type", JStr "Recipe");
        ("name", title pg);
        ("image", if truthy (image_url pg) then image_url pg else JNull);
        ("recipeYield", yield);
        ("recipeIngredient", ingredients);
        ("recipeInstructions", JArr (map how_to_step steps))]) ∧
  jsonld pg = indent_lines (dumps (JObj (jsonld_obj pg))) ∧
  (∃ e_title,
      py_escape (title pg) = Ok e_title ∧
      html pg = html_lit 0 +:+ e_title +:+ html_lit 1 +:+ escape (desc pg) +:+ html_lit 2 +:+ jsonld pg
                +:+ html_lit 3 +:+ e_title +:+ html_lit 4 +:+ escape (meta pg) +:+ html_lit 5 +:+ bring_link pg
                +:+ html_lit 6 +:+ hero_img pg +:+ html_lit 7 +:+ ingredients_html pg +:+ html_lit 8
                +:+ instructions_html pg +:+ html_lit 9).
Proof.
  unfold render. intros Hr.
  repeat invert_bind Hr.
  match goal with
  | E : format _ _ = Ok _ |- _ => rewrite format_html in E; injection E as <-
  end.
  injection Hr as <-.
  cbn [slug title bring_link jsonld_obj jsonld html image_url desc meta hero_img
       ingredients_html instructions_html].
  repeat split; try reflexivity.
  - eauto 10.
  - eauto.
Qed.
(** ** The driver *)

Lemma build_recipe_page_writes r :
  ∃ res ws, ∀ fs, build_recipe_page ROOT py_repr r fs = (res, write_all ws fs).
Proof.
  unfold build_recipe_page. destruct (render py_repr r) as [pg|e].
  - destruct (page_path ROOT (slug pg)) as [p|e].
    + exists (Ok tt), [(p, html pg)]. done.
    + exists (Raise e), []. done.
  - exists (Raise e), []. done.
Qed.

Lemma build_pages_writes rs :
  ∃ res ws, ∀ fs, build_pages ROOT py_repr rs fs = (res, write_all ws fs).
Proof.
  induction rs as [|r rs (res & ws & IH)]; cbn [build_pages].
  - exists (Ok tt), []. done.
  - destruct (build_recipe_page_writes r) as ([[]|e] & ws1 & H1).
    + exists res, (ws1 ++ ws). intros fs. by rewrite H1, IH, write_all_app.
    + exists (Raise e), ws1. intros fs. by rewrite H1.
Qed.

Lemma build_index_writes rs :
  ∃ res ws, ∀ fs, build_index ROOT rs fs = (res, write_all ws fs).
Proof.
  unfold build_index. destruct (render_index rs) as [h|e].
  - exists (Ok tt), [(path_div (DOCS_DIR ROOT) "index.html", h)]. done.
  - exists (Raise e), []. done.
Qed.

Lemma main_writes entries :
  ∃ res ws, ∀ fs, main ROOT py_repr entries fs = (res, write_all ws fs).
Proof.
  unfold main. destruct (load_recipes ROOT entries) as [rs|e].
  - destruct (build_pages_writes rs) as ([[]|e] & ws1 & H1).
    + destruct (build_index_writes rs) as ([[]|e] & ws2 & H2).
      * eexists _, (ws1 ++ ws2). intros fs. by rewrite H1, H2, write_all_app.
      * exists (Raise e), (ws1 ++ ws2). intros fs. by rewrite H1, H2, write_all_app.
    + exists (Raise e), ws1. intros fs. by rewrite H1.
  - exists (Raise e), []. done.
Qed.

Lemma docs_dir : DOCS_DIR ROOT = ROOT ++ ["docs"].
Proof. reflexivity. Qed.

Lemma page_path_dir_name s :
  is_dir_name s → page_path ROOT (JStr s) = Ok (DOCS_DIR ROOT ++ [s; "index.html"]).
Proof.
  intros [Hr Hc]. unfold page_path, path_div at 1. cbn [root_of].
  unfold path_div. rewrite Hr, Hc. change (components "index.html") with ["index.html"].
  by rewrite <- app_assoc.
Qed.

Lemma build_pages_last rs fs :
  (∀ r, r ∈ rs → ∃ pg s, render py_repr r = Ok pg ∧ slug pg = JStr s ∧ is_dir_name s) →
  ∃ fs1, build_pages ROOT py_repr rs fs = (Ok tt, fs1) ∧
    (∀ before r after pg s,
        rs = before ++ r :: after → render py_repr r = Ok pg → slug pg = JStr s →
        (∀ r', r' ∈ after → getitem r' "slug" ≠ Ok (JStr s)) →
        fs1 !! (DOCS_DIR ROOT ++ [s; "index.html"]) = Some (html pg)) ∧
    (∀ s, (∀ r, r ∈ rs → getitem r "slug" ≠ Ok (JStr s)) →
        fs1 !! (DOCS_DIR ROOT ++ [s; "index.html"]) = fs !! (DOCS_DIR ROOT ++ [s; "index.html"])) ∧
    fs1 !! (DOCS_DIR ROOT ++ ["index.html"]) = fs !! (DOCS_DIR ROOT ++ ["index.html"]).
Proof.
  revert fs. induction rs as [|r rs IH]; intros fs Hall.
  - exists fs. split; [done|]. split; [|done].
    intros [|??] ???? E; discriminate E.
  - destruct (Hall r) as (pg & s & Hr & Hs & Hd); [by left|].
    assert (Hg : getitem r "slug" = Ok (JStr s)).
    { destruct (render_inv r pg Hr) as (G & _). by rewrite G, Hs. }
    destruct (IH (<[DOCS_DIR ROOT ++ [s; "index.html"] := html pg]> fs))
      as (fs1 & Hb & Hlast & Hkeep & Hidx).
    { intros r' Hr'. apply Hall. by right. }
    exists fs1. cbn [build_pages]. unfold build_recipe_page.
    rewrite Hr, Hs, (page_path_dir_name s Hd). split; [done|]. split; [|split].
    + intros [|r0 before] r1 after pg1 s1 E Hr1 Hs1 Hafter.
      * cbn in E. injection E as <- <-. rewrite Hr in Hr1. injection Hr1 as <-.
        rewrite Hs in Hs1. injection Hs1 as <-.
        rewrite Hkeep by done. by rewrite lookup_insert_eq.
      * cbn in E. injection E as <- ->. by eapply Hlast.
    + intros s1 Hno. rewrite Hkeep.
      * rewrite lookup_insert_ne; [done|].
        intros E. apply app_inv_head in E. injection E as ->.
        by apply (Hno r); [left|].
      * intros r' Hr'. apply Hno. by right.
    + rewrite Hidx. rewrite lookup_insert_ne; [done|].
      intros E. apply app_inv_head in E. discriminate.
Qed.

Lemma build_pages_returned rs fs fs1 :
  build_pages ROOT py_repr rs fs = (Ok tt, fs1) →
  ∀ r, r ∈ rs → ∃ pg s, render py_repr r = Ok pg ∧ slug pg = JStr s.
Proof.
  revert fs. induction rs as [|r0 rs IH]; intros fs Hb r Hr.
  - by apply elem_of_nil in Hr.
  - cbn [build_pages] in Hb. unfold build_recipe_page in Hb.
    destruct (render py_repr r0) as [pg|e] eqn:Hr0; [|discriminate].
    destruct (slug pg) as [| | |s| |] eqn:Hs; try discriminate.
    cbn [page_path] in Hb.
    apply elem_of_cons in Hr as [->|Hr]; [eauto|].
    by apply (IH _ Hb).
Qed.

Lemma render_index_ok rs :
  (∀ r, r ∈ rs → ∃ pg s, render py_repr r = Ok pg ∧ slug pg = JStr s ∧ is_dir_name s) →
  ∃ h, render_index rs = Ok h.
Proof.
  intros Hall. unfold render_index.
  assert (∃ links, map_result index_link rs = Ok links) as [links ->].
  { induction rs as [|r rs IH]; [by exists []|].
    destruct (Hall r) as (pg & s & Hr & Hs & _); [by left|].
    destruct (render_inv r pg Hr) as (G1 & G2 & _ & _ & _ & (et & Ht & _)).
    destruct IH as [links Hl]; [intros r' ?; apply Hall; by right|].
    cbn [map_result]. rewrite Hl. unfold index_link. rewrite G1, G2, Hs. step.
    cbn [py_escape]. step. rewrite Ht. step. eauto. }
  step. rewrite format_index. eauto.
Qed.

Lemma load_loop_contents paths out rs :
  load_loop ROOT paths out = Ok rs → map Ok rs = map Ok out ++ paths.*2.
Proof.
  revert out. induction paths as [|[fname content] paths IH]; intros out Hl.
  - cbn in Hl. injection Hl as <-. by rewrite app_nil_r.
  - rewrite load_loop_cons in Hl.
    destruct content as [data|e]; [|discriminate].
    rewrite bind_ok in Hl.
    destruct (check_keys _ data REQUIRED) as [[]|e]; [|discriminate].
    rewrite bind_ok in Hl. apply IH in Hl. rewrite Hl, map_app.
    cbn. by rewrite <- app_assoc.
Qed.

Lemma check_keys_complete p items :
  (∀ key, key ∈ REQUIRED → is_Some (dict_lookup key items)) →
  check_keys p (JObj items) REQUIRED = Ok tt.
Proof.
  intros Hall.
  destruct (check_keys_dict p items REQUIRED) as [[-> _]|(k & Hk & Hn & _)]; [done|].
  destruct (Hall k Hk) as [? ?]. congruence.
Qed.

Lemma load_loop_complete paths out :
  (∀ e, e ∈ paths → complete e.2) → ∃ rs, load_loop ROOT paths out = Ok rs.
Proof.
  revert out. induction paths as [|[f content] paths IH]; intros out Hall.
  - cbn. eauto.
  - destruct (Hall (f, content)) as (items & Hc & Hk); [by left|]. cbn in Hc. subst.
    rewrite load_loop_cons, bind_ok, check_keys_complete, bind_ok by exact Hk.
    apply IH. intros e He. apply Hall. by right.
Qed.

Lemma load_recipes_rejects entries fname items key :
  (fname, Ok (JObj items)) ∈ entries → ends_with ".json" fname = true →
  key ∈ REQUIRED → dict_lookup key items = None →
  (∃ e, load_recipes ROOT entries = Raise e) ∧
  ((∀ e, e ∈ entries → ends_with ".json" e.1 = true → ∃ its, e.2 = Ok (JObj its)) →
   ∃ fname' items' key',
     (fname', Ok (JObj items')) ∈ entries ∧ ends_with ".json" fname' = true ∧
     key' ∈ REQUIRED ∧ dict_lookup key' items' = None ∧
     load_recipes ROOT entries
     = Raise (ValueError (missing_msg (RECIPES_DIR ROOT ++ [fname']) key'))).
Proof.
  intros Hin Hext Hkey Hnone.
  assert (Hs : (fname, Ok (JObj items)) ∈ sorted (glob_json entries)).
  { apply elem_of_sorted, elem_of_glob_json. done. }
  destruct (load_loop_offender _ [] _ _ _ Hs Hkey Hnone) as [e He].
  split; [by exists e|].
  intros Hobj.
  destruct (load_loop_dicts (sorted (glob_json entries)) [])
    as [[rs Hrs]|(f & its & k & Hf & Hk & Hn & Hr)].
  - intros x [Hx1 Hx2]%elem_of_sorted%elem_of_glob_json. by apply Hobj.
  - unfold load_recipes in He. congruence.
  - exists f, its, k.
    apply elem_of_sorted, elem_of_glob_json in Hf as [Hf Hf'].
    repeat split; done.
Qed.

(** ** The claims *)

(** C1.  When some recipe file (an entry matched by [*.json] that holds a
    JSON object) lacks one of the four required keys, [main] raises and
    leaves the file tree as it found it: nothing is written.  When every
    matched file holds an object, the exception is the [ValueError] whose
    text is the path of a file lacking a key, then [: missing '], the
    missing key and a closing quote; the file named is the first such in
    sorted order, the key the first it lacks. *)
Theorem missing_key_aborts entries fs fname items key :
  (fname, Ok (JObj items)) ∈ entries → ends_with ".json" fname = true →
  key ∈ REQUIRED → dict_lookup key items = None →
  (∃ e, main ROOT py_repr entries fs = (Raise e, fs)) ∧
  ((∀ e, e ∈ entries → ends_with ".json" e.1 = true → ∃ its, e.2 = Ok (JObj its)) →
   ∃ fname' items' key',
     (fname', Ok (JObj items')) ∈ entries ∧ ends_with ".json" fname' = true ∧
     key' ∈ REQUIRED ∧ dict_lookup key' items' = None ∧
     main ROOT py_repr entries fs
     = (Raise (ValueError (path_str (RECIPES_DIR ROOT ++ [fname']) +:+ ": missing '"
                           +:+ key' +:+ "'")), fs)).
Proof.
  intros Hin Hext Hkey Hnone.
  destruct (load_recipes_rejects entries fname items key Hin Hext Hkey Hnone)
    as [[e He] Hmsg].
  split.
  - exists e. unfold main. by rewrite He.
  - intros Hobj. destruct (Hmsg Hobj) as (f & its & k & ? & ? & ? & ? & Hr).
    exists f, its, k. repeat split; try done. unfold main. by rewrite Hr.
Qed.

(** C2.  On the page of a record the import link is the fixed endpoint
    followed by [?url=], a value [e] and [&source=web]; [e] is the value
    of the query parameter [url] of the link, and percent-decoding [e]
    gives exactly [REPO_PAGES_BASE/slug/].  The link is the [href] of the
    import button of the page. *)
Theorem import_link_round_trip r v :
  represents r v →
  ∃ pg e,
    render py_repr r = Ok pg ∧
    bring_link pg = BRING_ENDPOINT +:+ "?url=" +:+ e +:+ "&source=web" ∧
    query_param "url" (bring_link pg) = Some e ∧
    unquote e = REPO_PAGES_BASE +:+ "/" +:+ r_slug v +:+ "/" ∧
    occurs_in (HREF_OPEN +:+ bring_link pg +:+ dq) (html pg).
Proof.
  intros Hv.
  destruct (render_represents r v Hv)
    as (pg & Hr & _ & _ & Hu & Hb & _ & _ & _ & _ & _ & _ & Hh).
  exists pg, (quote (recipe_url pg)). split; [done|]. split; [done|].
  split; [rewrite Hb; apply query_param_bring_link|].
  split; [by rewrite unquote_quote|].
  rewrite Hh. do 10 apply occurs_in_app_r.
  destruct lit5_ends as [p Hp]. destruct lit6_starts as [q Hq].
  by eapply occurs_in_between.
Qed.

(** C3.  The page of a valid record holds, between [<ul>] and [</ul>],
    one line [<li>escape(x)</li>] for each ingredient [x], in the order
    of the record, and further down, between [<ol>] and [</ol>], one such
    line for each instruction, in the order of the record. *)
Theorem page_lists_items_in_order r v :
  represents r v →
  ∃ pg pre mid post,
    render py_repr r = Ok pg ∧
    ingredients_html pg = String.concat nl (map li (r_ingredients v)) ∧
    instructions_html pg = String.concat nl (map li (r_instructions v)) ∧
    html pg = pre +:+ (UL_OPEN +:+ ingredients_html pg +:+ UL_CLOSE) +:+ mid
              +:+ (OL_OPEN +:+ instructions_html pg +:+ OL_CLOSE) +:+ post.
Proof.
  intros Hv.
  destruct (render_represents r v Hv)
    as (pg & Hr & _ & _ & _ & _ & _ & _ & Hing & Hins & _ & _ & Hh).
  destruct lit7_ends as [p7 E7]. destruct lit8_split as [m8 E8].
  destruct lit9_starts as [q9 E9].
  rewrite E7, E8, E9 in Hh.
  exists pg.
  exists (html_lit 0 +:+ escape (r_name v) +:+ html_lit 1
          +:+ escape ("Privates Rezept: " +:+ r_name v)
          +:+ html_lit 2 +:+ jsonld pg +:+ html_lit 3 +:+ escape (r_name v)
          +:+ html_lit 4 +:+ escape (meta pg) +:+ html_lit 5 +:+ bring_link pg
          +:+ html_lit 6 +:+ hero_img pg +:+ p7), m8, q9.
  split; [done|]. split; [done|]. split; [done|].
  rewrite Hh, !app_assoc_s. reflexivity.
Qed.

(** C4.  The metadata line is [meta_line] of the yield and the time that
    exist (a value that is missing, [null] or empty does not exist): the
    plate and the yield, the stopwatch and the time, both joined by a
    bullet, or the fallback text; it is shown, escaped, in the [sub]
    block of the page.  With the yield [4 Portionen] and no time the line
    is exactly the plate followed by [4 Portionen]. *)
Theorem meta_line_composed r v :
  represents r v →
  ∃ pg,
    render py_repr r = Ok pg ∧
    meta pg = meta_line (nonempty (r_yield v)) (nonempty (r_time v)) ∧
    occurs_in (SUB_OPEN +:+ escape (meta pg) +:+ "</div>") (html pg) ∧
    (r_yield v = Some "4 Portionen" → nonempty (r_time v) = None →
     meta pg = "🍽️ 4 Portionen" ∧
     occurs_in (SUB_OPEN +:+ "🍽️ 4 Portionen" +:+ "</div>") (html pg)).
Proof.
  intros Hv.
  destruct (render_represents r v Hv)
    as (pg & Hr & _ & _ & _ & _ & _ & _ & _ & _ & Hm & _ & Hh).
  assert (Ho : occurs_in (SUB_OPEN +:+ escape (meta pg) +:+ "</div>") (html pg)).
  { rewrite Hh. do 8 apply occurs_in_app_r.
    destruct lit4_ends as [p Hp]. destruct lit5_starts as [q Hq].
    by eapply occurs_in_between. }
  exists pg. split; [done|]. split; [done|]. split; [done|].
  intros Hy Ht. rewrite Hy, Ht in Hm. cbn in Hm.
  split; [done|]. rewrite Hm in Ho. exact Ho.
Qed.

(** The hero element and the [image] item of the object: the page shows
    [hero_img] between the button row and the grid.  For a record with a
    (non-empty) [image_file] it is the hero [<img>] element and the
    object [jsonld_obj] maps [image] to
    [REPO_PAGES_BASE/assets/images/image_file]; for a record without one
    there is nothing at that place and the object has no [image] item.
    This is about the object, not about the text that reaches the
    page. *)
Lemma hero_and_image_field r v :
  represents r v →
  ∃ pg,
    render py_repr r = Ok pg ∧
    occurs_in (HERO_BEFORE +:+ hero_img pg +:+ HERO_AFTER) (html pg) ∧
    match nonempty (r_image_file v) with
    | Some f =>
        hero_img pg = hero_element f (r_name v) ∧
        dict_lookup "image" (jsonld_obj pg)
        = Some (JStr (REPO_PAGES_BASE +:+ "/assets/images/" +:+ f))
    | None =>
        hero_img pg = "" ∧ dict_lookup "image" (jsonld_obj pg) = None
    end.
Proof.
  intros Hv.
  destruct (render_represents r v Hv)
    as (pg & Hr & _ & _ & _ & _ & Ho & _ & _ & _ & _ & Hhero & Hh).
  exists pg. split; [done|]. split.
  { rewrite Hh. do 12 apply occurs_in_app_r.
    destruct lit6_ends as [p Hp]. destruct lit7_starts as [q Hq].
    by eapply occurs_in_between. }
  rewrite Ho, Hhero.
  destruct (nonempty (r_image_file v)) as [f|];
    destruct (r_name v) as [|cn n]; destruct (r_yield v) as [[|cy y]|];
    split; reflexivity.
Qed.

(** C5, at the failing input.  For a record whose [image_file] holds
    U+2028 the object maps [image] to
    [REPO_PAGES_BASE/assets/images/image_file], but the block of the page
    does not hold that URL: the re-indentation splits the serialized
    text at U+2028, drops it, and joins with a line feed and two
    spaces, inside the string literal. *)
Theorem image_url_broken_in_block :
  ∃ pg, render py_repr separator_record = Ok pg ∧
        dict_lookup "image" (jsonld_obj pg)
        = Some (JStr (REPO_PAGES_BASE +:+ "/assets/images/a" +:+ LINE_SEPARATOR
                      +:+ "b.jpg")) ∧
        str_contains ("/assets/images/a" +:+ LINE_SEPARATOR +:+ "b.jpg") (jsonld pg)
        = false ∧
        str_contains ("/assets/images/a" +:+ nl +:+ "  b.jpg" +:+ dq) (jsonld pg)
        = true ∧
        occurs_in (SCRIPT_OPEN +:+ jsonld pg +:+ SCRIPT_CLOSE) (html pg).
Proof.
  destruct (render_represents separator_record
              (mkRecipe "x" "Suppe" [] [] None None
                        (Some ("a" +:+ LINE_SEPARATOR +:+ "b.jpg"))))
    as (pg & Hr & _ & _ & _ & _ & Ho & Hj & _ & _ & _ & _ & Hh).
  { repeat split; reflexivity. }
  exists pg. split; [done|].
  split; [rewrite Ho; reflexivity|].
  split; [rewrite Hj, Ho; vm_compute; reflexivity|].
  split; [rewrite Hj, Ho; vm_compute; reflexivity|].
  rewrite Hh. do 4 apply occurs_in_app_r.
  destruct lit2_ends as [p Hp]. destruct lit3_starts as [q Hq].
  by eapply occurs_in_between.
Qed.

(** C6.  No key of the structured-data object carries [null] or the empty
    string: [name], [image] and [recipeYield] are left out when their
    value is absent or empty, and kept with their value otherwise;
    [recipeIngredient] and [recipeInstructions] are always kept.  The
    text in the script block of the page is this object, serialized. *)
Theorem jsonld_omits_absent r v :
  represents r v →
  ∃ pg,
    render py_repr r = Ok pg ∧
    (∀ key x, dict_lookup key (jsonld_obj pg) = Some x → x ≠ JNull ∧ x ≠ JStr "") ∧
    (r_name v ≠ "" → dict_lookup "name" (jsonld_obj pg) = Some (JStr (r_name v))) ∧
    dict_lookup "recipeIngredient" (jsonld_obj pg)
      = Some (JArr (map JStr (r_ingredients v))) ∧
    dict_lookup "recipeInstructions" (jsonld_obj pg)
      = Some (JArr (map how_to_step (map JStr (r_instructions v)))) ∧
    (r_name v = "" → dict_lookup "name" (jsonld_obj pg) = None) ∧
    (nonempty (r_image_file v) = None → dict_lookup "image" (jsonld_obj pg) = None) ∧
    (nonempty (r_yield v) = None → dict_lookup "recipeYield" (jsonld_obj pg) = None) ∧
    (∀ y, nonempty (r_yield v) = Some y →
          dict_lookup "recipeYield" (jsonld_obj pg) = Some (JStr y)) ∧
    jsonld pg = indent_lines (dumps (JObj (jsonld_obj pg))) ∧
    occurs_in (SCRIPT_OPEN +:+ jsonld pg +:+ SCRIPT_CLOSE) (html pg).
Proof.
  intros Hv.
  destruct (render_represents r v Hv)
    as (pg & Hr & _ & _ & _ & _ & Ho & Hj & _ & _ & _ & _ & Hh).
  exists pg. split; [done|]. split.
  { intros key x Hx. rewrite Ho in Hx.
    by apply kept_spec, dict_lookup_clean_none_kept with (1 := Hx). }
  assert (Hs : occurs_in (SCRIPT_OPEN +:+ jsonld pg +:+ SCRIPT_CLOSE) (html pg)).
  { rewrite Hh. do 4 apply occurs_in_app_r.
    destruct lit2_ends as [p Hp]. destruct lit3_starts as [q Hq].
    by eapply occurs_in_between. }
  rewrite Ho.
  destruct (nonempty (r_image_file v)) as [f|];
    destruct (r_name v) as [|cn n]; destruct (r_yield v) as [[|cy y]|];
    cbn [nonempty String.eqb];
    repeat split; try reflexivity; try done; try congruence;
    try (intros ? E; injection E as <-; reflexivity).
Qed.

(** C7, as amended.  After a successful load every record of the returned
    list contains each of the four required keys ([key in record] holds;
    for a dict the key is among its items, whatever its value, [null]
    included).  A matched file that holds an object lacking one of the
    keys is rejected: the load raises, and when every matched file holds
    an object the exception is the [ValueError] whose text is the path
    of a file lacking a key, then [: missing '], the key it lacks and a
    closing quote. *)
Theorem loaded_records_have_keys entries :
  (∀ recipes r,
      load_recipes ROOT entries = Ok recipes → r ∈ recipes →
      (∀ key, key ∈ REQUIRED → py_in key r = Ok true) ∧
      (∀ items, r = JObj items →
                ∀ key, key ∈ REQUIRED → is_Some (dict_lookup key items))) ∧
  (∀ fname items key,
      (fname, Ok (JObj items)) ∈ entries → ends_with ".json" fname = true →
      key ∈ REQUIRED → dict_lookup key items = None →
      (∃ e, load_recipes ROOT entries = Raise e) ∧
      ((∀ e, e ∈ entries → ends_with ".json" e.1 = true → ∃ its, e.2 = Ok (JObj its)) →
       ∃ fname' items' key',
         (fname', Ok (JObj items')) ∈ entries ∧ ends_with ".json" fname' = true ∧
         key' ∈ REQUIRED ∧ dict_lookup key' items' = None ∧
         load_recipes ROOT entries
         = Raise (ValueError (path_str (RECIPES_DIR ROOT ++ [fname']) +:+ ": missing '"
                              +:+ key' +:+ "'")))).
Proof.
  split.
  - intros recipes r Hl Hr.
    assert (Hkeys : ∀ key, key ∈ REQUIRED → py_in key r = Ok true).
    { unfold load_recipes in Hl. apply load_loop_ok in Hl as (new & -> & Hnew).
      rewrite app_nil_l in Hr. by apply Hnew. }
    split; [done|].
    intros items -> key Hk. specialize (Hkeys key Hk). cbn in Hkeys.
    injection Hkeys as Hd. by apply bool_decide_eq_true in Hd.
  - intros fname items key Hin Hext Hk Hx.
    exact (load_recipes_rejects entries fname items key Hin Hext Hk Hx).
Qed.

(** C8, at the failing input.  For the record named [</script>] the
    serialized structured data, placed unescaped inside the script block
    of the page, contains the closing tag of that block. *)
Theorem script_close_not_escaped :
  ∃ pg, render py_repr script_record = Ok pg ∧
        str_contains "</script>" (jsonld pg) = true ∧
        occurs_in (SCRIPT_OPEN +:+ jsonld pg +:+ SCRIPT_CLOSE) (html pg).
Proof.
  destruct (render_represents script_record
              (mkRecipe "x" "</script>" [] [] None None None))
    as (pg & Hr & _ & _ & _ & _ & Ho & Hj & _ & _ & _ & _ & Hh).
  { repeat split; reflexivity. }
  exists pg. split; [done|]. split.
  - rewrite Hj, Ho. vm_compute. reflexivity.
  - rewrite Hh. do 4 apply occurs_in_app_r.
    destruct lit2_ends as [p Hp]. destruct lit3_starts as [q Hq].
    by eapply occurs_in_between.
Qed.

(** C9.  What [main] returns and writes is fixed by the input files: the
    tree it leaves is the tree it found with a list of writes applied
    that does not depend on that tree.  Running it again on the tree the
    first run left gives the same result and the same tree, every file
    rewritten with the bytes it already had. *)
Theorem build_idempotent entries :
  (∃ res ws, ∀ fs, main ROOT py_repr entries fs = (res, write_all ws fs)) ∧
  (∀ fs, main ROOT py_repr entries (main ROOT py_repr entries fs).2
         = main ROOT py_repr entries fs).
Proof.
  split; [apply main_writes|].
  destruct (main_writes entries) as (res & ws & Hm). intros fs.
  rewrite !Hm. cbn. by rewrite write_all_twice.
Qed.

(** C10, as amended.  Records that share a slug are not told apart by
    the loader: when every matched file is a dict with the four keys,
    the load returns them all, in sorted order.  When the slugs are
    single directory names and the run returns, then for a record [r]
    with slug [s] that no later record of the load order shares, the
    file [DOCS_DIR/s/index.html] holds the page of [r] after the run,
    however many earlier records had the slug [s]. *)
Theorem last_record_wins entries :
  ((∀ e, e ∈ entries → ends_with ".json" e.1 = true → complete e.2) →
   ∃ recipes, load_recipes ROOT entries = Ok recipes ∧
              map Ok recipes = (sorted (glob_json entries)).*2) ∧
  (∀ fs line fs' recipes,
      main ROOT py_repr entries fs = (Ok line, fs') →
      load_recipes ROOT entries = Ok recipes →
      (∀ r s, r ∈ recipes → getitem r "slug" = Ok (JStr s) → is_dir_name s) →
      ∀ before r after s,
        recipes = before ++ r :: after → getitem r "slug" = Ok (JStr s) →
        (∀ r', r' ∈ after → getitem r' "slug" ≠ Ok (JStr s)) →
        ∃ pg, render py_repr r = Ok pg ∧
              fs' !! (DOCS_DIR ROOT ++ [s; "index.html"]) = Some (html pg)).
Proof.
  split.
  - intros Hall. unfold load_recipes.
    destruct (load_loop_complete (sorted (glob_json entries)) []) as [rs Hrs].
    { intros e [He1 He2]%elem_of_sorted%elem_of_glob_json. by apply Hall. }
    exists rs. split; [done|]. by apply load_loop_contents in Hrs.
  - intros fs line fs' recipes Hm Hl Hdir before r after s Hrec Hs Hafter.
    unfold main in Hm. rewrite Hl in Hm.
    destruct (build_pages ROOT py_repr recipes fs) as [[[]|e] fs1] eqn:Hb; [|discriminate].
    unfold build_index in Hm.
    destruct (render_index recipes) as [h|e]; [|discriminate].
    injection Hm as _ <-.
    assert (Hall : ∀ r0, r0 ∈ recipes →
              ∃ pg s0, render py_repr r0 = Ok pg ∧ slug pg = JStr s0 ∧ is_dir_name s0).
    { intros r0 Hr0.
      destruct (build_pages_returned recipes fs fs1 Hb r0 Hr0) as (pg & s0 & Hr & Hs0).
      exists pg, s0. split; [done|]. split; [done|].
      apply (Hdir r0 s0 Hr0).
      destruct (render_inv r0 pg Hr) as (G & _). by rewrite G, Hs0. }
    destruct (build_pages_last recipes fs Hall) as (fs1' & Hb' & Hlast & _ & _).
    rewrite Hb in Hb'. injection Hb' as <-.
    assert (Hr : r ∈ recipes).
    { rewrite Hrec. apply elem_of_app. right. by left. }
    destruct (Hall r Hr) as (pg & s0 & Hrender & Hs0 & _).
    assert (s0 = s) as ->.
    { destruct (render_inv r pg Hrender) as (G & _). rewrite G, Hs0 in Hs. congruence. }
    exists pg. split; [done|].
    rewrite lookup_insert_ne; [by eapply Hlast|].
    change (path_div (DOCS_DIR ROOT) "index.html") with (DOCS_DIR ROOT ++ ["index.html"]).
    intros E'. apply app_inv_head in E'. discriminate.
Qed.

End Properties.

(** ** The claims at sample inputs *)

Lemma represents_soup : represents soup_json soup.
Proof. repeat split; reflexivity. Qed.

Lemma represents_stew : represents stew_json stew.
Proof. repeat split; reflexivity. Qed.

(** C7 as stated fails: a file whose four required keys are all [null]
    loads, and the record returned has a [null] name. *)
Lemma null_fields_load :
  load_recipes sample_root [("null.json", Ok null_record)] = Ok [null_record] ∧
  getitem null_record "slug" = Ok JNull ∧
  getitem null_record "name" = Ok JNull ∧
  getitem null_record "ingredients" = Ok JNull ∧
  getitem null_record "instructions" = Ok JNull.
Proof. repeat split; vm_compute; reflexivity. Qed.

Lemma missing_key_aborts_witness :
  ∃ e, main sample_root sample_repr
         [("a.json", Ok soup_json); ("b.json", Ok no_name_json)] ∅ = (Raise e, ∅).
Proof.
  refine (proj1 (missing_key_aborts sample_root sample_repr
                   [("a.json", Ok soup_json); ("b.json", Ok no_name_json)] ∅
                   "b.json" _ "name" _ _ _ _)).
  - apply elem_of_cons. right. apply elem_of_cons. left. reflexivity.
  - reflexivity.
  - apply elem_of_cons. right. apply elem_of_cons. left. reflexivity.
  - reflexivity.
Defined.

Lemma import_link_witness :
  represents soup_json soup ∧
  ∃ pg e, render sample_repr soup_json = Ok pg ∧
          query_param "url" (bring_link pg) = Some e ∧
          unquote e = "https://Sabsx.github.io/bring-recipes/suppe/".
Proof.
  split; [repeat split; reflexivity|].
  destruct (import_link_round_trip sample_repr soup_json soup)
    as (pg & e & Hr & _ & Hq & Hu & _).
  { repeat split; reflexivity. }
  exists pg, e. repeat split; assumption.
Defined.

Lemma page_lists_items_witness :
  represents soup_json soup ∧
  ∃ pg pre mid post,
    render sample_repr soup_json = Ok pg ∧
    html pg = pre +:+ (UL_OPEN +:+ ingredients_html pg +:+ UL_CLOSE) +:+ mid
              +:+ (OL_OPEN +:+ instructions_html pg +:+ OL_CLOSE) +:+ post.
Proof.
  split; [repeat split; reflexivity|].
  destruct (page_lists_items_in_order sample_repr soup_json soup)
    as (pg & pre & mid & post & Hr & _ & _ & Hh).
  { repeat split; reflexivity. }
  exists pg, pre, mid, post. split; assumption.
Defined.

Lemma meta_line_witness :
  represents soup_json soup ∧
  ∃ pg, render sample_repr soup_json = Ok pg ∧ meta pg = "🍽️ 4 Portionen".
Proof.
  split; [repeat split; reflexivity|].
  destruct (meta_line_composed sample_repr soup_json soup) as (pg & Hr & _ & _ & Hm).
  { repeat split; reflexivity. }
  exists pg. split; [assumption|]. apply Hm; reflexivity.
Defined.

Lemma jsonld_omits_witness :
  represents stew_json stew ∧
  ∃ pg, render sample_repr stew_json = Ok pg ∧
        dict_lookup "image" (jsonld_obj pg) = None ∧
        dict_lookup "recipeYield" (jsonld_obj pg) = None ∧
        dict_lookup "name" (jsonld_obj pg) = Some (JStr "Eintopf").
Proof.
  split; [repeat split; reflexivity|].
  destruct (jsonld_omits_absent sample_repr stew_json stew)
    as (pg & Hr & _ & Hn & _ & _ & _ & Hi & Hy & _).
  { repeat split; reflexivity. }
  exists pg. split; [assumption|].
  split; [apply Hi; reflexivity|]. split; [apply Hy; reflexivity|].
  apply Hn. discriminate.
Defined.

Lemma loaded_records_witness :
  (load_recipes sample_root [("null.json", Ok null_record)] = Ok [null_record] ∧
   ∀ key, key ∈ REQUIRED → py_in key null_record = Ok true) ∧
  ∃ fname key,
    load_recipes sample_root [("a.json", Ok soup_json); ("b.json", Ok no_name_json)]
    = Raise (ValueError (path_str (RECIPES_DIR sample_root ++ [fname]) +:+ ": missing '"
                         +:+ key +:+ "'")).
Proof.
  split.
  - assert (Hl : load_recipes sample_root [("null.json", Ok null_record)]
                 = Ok [null_record]) by (vm_compute; reflexivity).
    split; [exact Hl|].
    refine (proj1 (proj1 (loaded_records_have_keys sample_root
                            [("null.json", Ok null_record)])
                     [null_record] null_record Hl _)).
    apply elem_of_cons. left. reflexivity.
  - assert (Hin : ("b.json", Ok no_name_json)
                  ∈ [("a.json", Ok soup_json); ("b.json", Ok no_name_json)]).
    { apply elem_of_cons. right. apply elem_of_cons. left. reflexivity. }
    assert (Hk : "name" ∈ REQUIRED).
    { apply elem_of_cons. right. apply elem_of_cons. left. reflexivity. }
    destruct (proj2 (loaded_records_have_keys sample_root
                       [("a.json", Ok soup_json); ("b.json", Ok no_name_json)])
                "b.json" _ "name" Hin eq_refl Hk eq_refl) as [_ Hmsg].
    destruct Hmsg as (fname & items & key & _ & _ & _ & _ & E).
    { intros e He _.
      apply elem_of_cons in He as [->|He]; [eexists; reflexivity|].
      apply elem_of_cons in He as [->|He]; [eexists; reflexivity|].
      by apply elem_of_nil in He. }
    exists fname, key. exact E.
Defined.

Lemma two_soups_run :
  ∃ line fs',
    main sample_root sample_repr [("b.json", Ok stew_json); ("a.json", Ok soup_json)] ∅
    = (Ok line, fs').
Proof.
  assert (Hl : load_recipes sample_root [("b.json", Ok stew_json); ("a.json", Ok soup_json)]
               = Ok [soup_json; stew_json]) by (vm_compute; reflexivity).
  assert (Hall : ∀ r, r ∈ [soup_json; stew_json] →
            ∃ pg s, render sample_repr r = Ok pg ∧ slug pg = JStr s ∧ is_dir_name s).
  { intros r Hr.
    apply elem_of_cons in Hr as [->|Hr];
      [|apply elem_of_cons in Hr as [->|Hr]; [|by apply elem_of_nil in Hr]].
    - destruct (render_represents sample_repr soup_json soup) as (pg & Hr & Hs & _).
      { repeat split; reflexivity. }
      exists pg, "suppe". repeat split; try assumption; reflexivity.
    - destruct (render_represents sample_repr stew_json stew) as (pg & Hr & Hs & _).
      { repeat split; reflexivity. }
      exists pg, "suppe". repeat split; try assumption; reflexivity. }
  unfold main. rewrite Hl.
  destruct (build_pages_last sample_root sample_repr [soup_json; stew_json] ∅ Hall)
    as (fs1 & -> & _).
  destruct (render_index_ok sample_repr [soup_json; stew_json] Hall) as [h Hh].
  unfold build_index. rewrite Hh. eauto.
Qed.

Lemma last_record_wins_witness :
  ∃ line fs' pg,
    main sample_root sample_repr [("b.json", Ok stew_json); ("a.json", Ok soup_json)] ∅
      = (Ok line, fs') ∧
    load_recipes sample_root [("b.json", Ok stew_json); ("a.json", Ok soup_json)]
      = Ok [soup_json; stew_json] ∧
    render sample_repr stew_json = Ok pg ∧
    fs' !! (DOCS_DIR sample_root ++ ["suppe"; "index.html"]) = Some (html pg).
Proof.
  destruct two_soups_run as (line & fs' & Hm).
  assert (Hl : load_recipes sample_root [("b.json", Ok stew_json); ("a.json", Ok soup_json)]
               = Ok [soup_json; stew_json]) by (vm_compute; reflexivity).
  destruct (proj2 (last_record_wins sample_root sample_repr
                     [("b.json", Ok stew_json); ("a.json", Ok soup_json)])
              ∅ line fs' [soup_json; stew_json] Hm Hl) with
    (before := [soup_json]) (r := stew_json) (after := @nil json) (s := "suppe")
    as (pg & Hr & Hp).
  - intros r s Hr Hs.
    apply elem_of_cons in Hr as [->|Hr];
      [|apply elem_of_cons in Hr as [->|Hr]; [|by apply elem_of_nil in Hr]];
      vm_compute in Hs; injection Hs as <-; split; reflexivity.
  - reflexivity.
  - reflexivity.
  - intros r' Hr'. by apply elem_of_nil in Hr'.
  - exists line, fs', pg. repeat split; assumption.
Defined.

Lemma blank_pages :
  ∃ pg1 pg2 h,
    render sample_repr first_blank_json = Ok pg1 ∧ slug pg1 = JStr "" ∧
    render sample_repr second_blank_json = Ok pg2 ∧ slug pg2 = JStr "" ∧
    render_index [first_blank_json; second_blank_json] = Ok h ∧
    String.eqb h (html pg2) = false.
Proof.
  eexists _, _, _.
  split; [vm_compute; reflexivity|]. split; [reflexivity|].
  split; [vm_compute; reflexivity|]. split; [reflexivity|].
  split; [vm_compute; reflexivity|].
  vm_compute. reflexivity.
Qed.

(** C10 as stated fails: two records share the empty slug, the run
    returns, and [DOCS_DIR//index.html], which is [DOCS_DIR/index.html],
    holds the index and not the page of the last record. *)
Lemma empty_slug_page_replaced :
  ∃ line fs' pg h,
    main sample_root sample_repr
         [("a.json", Ok first_blank_json); ("b.json", Ok second_blank_json)] ∅
      = (Ok line, fs') ∧
    getitem first_blank_json "slug" = getitem second_blank_json "slug" ∧
    render sample_repr second_blank_json = Ok pg ∧
    page_path sample_root (slug pg) = Ok (DOCS_DIR sample_root ++ ["index.html"]) ∧
    fs' !! (DOCS_DIR sample_root ++ ["index.html"]) = Some h ∧
    h ≠ html pg.
Proof.
  destruct blank_pages as (pg1 & pg2 & h & Hr1 & Hs1 & Hr2 & Hs2 & Hh & Hne).
  assert (Hl : load_recipes sample_root
                 [("a.json", Ok first_blank_json); ("b.json", Ok second_blank_json)]
               = Ok [first_blank_json; second_blank_json]) by (vm_compute; reflexivity).
  eexists _, _, pg2, h.
  split.
  { unfold main. rewrite Hl. cbn [build_pages]. unfold build_recipe_page.
    rewrite Hr1, Hs1, Hr2, Hs2. cbn [page_path].
    unfold build_index. rewrite Hh. reflexivity. }
  split; [reflexivity|]. split; [exact Hr2|].
  split; [rewrite Hs2; reflexivity|].
  split; [apply lookup_insert_eq|].
  intros ->. rewrite String.eqb_refl in Hne. discriminate.
Qed.

(** * Further properties of the build *)

Lemma ltb_false_leb a b : String.ltb b a = false → name_le a b.
Proof.
  unfold name_le, String.ltb, String.leb. rewrite (String.compare_antisym a b).
  destruct (String.compare b a); cbn; congruence.
Qed.

Lemma ltb_true_leb a b : String.ltb a b = true → name_le a b.
Proof.
  unfold name_le, String.ltb, String.leb. destruct (String.compare a b); congruence.
Qed.

Lemma name_le_trans a b c : name_le a b → name_le b c → name_le a c.
Proof.
  unfold name_le. intros Hab Hbc.
  apply Is_true_true. apply Is_true_true in Hab, Hbc.
  exact (transitivity (R := String.le) Hab Hbc).
Qed.

Lemma insert_sorted_perm {A} (x : string * A) l : insert_sorted x l ≡ₚ x :: l.
Proof.
  induction l as [|y l IH]; cbn; [done|].
  destruct (String.ltb y.1 x.1); [|done].
  rewrite IH. apply Permutation_swap.
Qed.

Lemma sorted_perm {A} (l : list (string * A)) : sorted l ≡ₚ l.
Proof.
  induction l as [|x l IH]; cbn; [done|].
  by rewrite insert_sorted_perm, IH.
Qed.

Lemma insert_sorted_ordered {A} (x : string * A) l :
  StronglySorted (λ a b, name_le a.1 b.1) l →
  StronglySorted (λ a b, name_le a.1 b.1) (insert_sorted x l).
Proof.
  induction 1 as [|y l Hs IH Hall]; cbn.
  - repeat constructor.
  - destruct (String.ltb y.1 x.1) eqn:Hlt.
    + constructor; [done|].
      rewrite insert_sorted_perm. constructor; [by apply ltb_true_leb|done].
    + apply ltb_false_leb in Hlt.
      constructor; [by constructor|].
      constructor; [done|].
      eapply Forall_impl; [exact Hall|]. intros z Hz. by eapply name_le_trans.
Qed.

Lemma sorted_ordered {A} (l : list (string * A)) :
  StronglySorted (λ a b, name_le a.1 b.1) (sorted l).
Proof.
  induction l as [|x l IH]; cbn; [constructor|]. by apply insert_sorted_ordered.
Qed.

Section LoadOrder.
Variable ROOT : Path.
Variable py_repr : json -> string.

(** X1.  The records a successful load returns are the contents of the
    entries matched by [*.json], each once, in ascending byte-wise order
    of their file names. *)
Theorem load_order entries recipes :
  load_recipes ROOT entries = Ok recipes →
  ∃ loaded : list (string * result json),
    map Ok recipes = loaded.*2 ∧
    loaded ≡ₚ glob_json entries ∧
    StronglySorted (λ a b, name_le a.1 b.1) loaded.
Proof.
  intros Hl. exists (sorted (glob_json entries)).
  split; [|split].
  - apply load_loop_contents in Hl. exact Hl.
  - apply sorted_perm.
  - apply sorted_ordered.
Qed.
End LoadOrder.


Section Runs.
Variable ROOT : Path.
Variable py_repr : json -> string.

Lemma load_loop_unreadable paths out e0 :
  (∀ e, e ∈ paths → e.2 = Raise e0 ∨ complete e.2) →
  (∃ fname, (fname, Raise e0) ∈ paths) →
  load_loop ROOT paths out = Raise e0.
Proof.
  revert out. induction paths as [|[f content] paths IH]; intros out Hall [fname Hin].
  - by apply elem_of_nil in Hin.
  - rewrite load_loop_cons.
    destruct (Hall (f, content)) as [Hc|(items & Hc & Hk)]; [by left| |]; cbn in Hc; subst.
    + reflexivity.
    + rewrite bind_ok, check_keys_complete, bind_ok by done.
      apply IH.
      * intros e He. apply Hall. by right.
      * apply elem_of_cons in Hin as [Hin|Hin]; [discriminate|eauto].
Qed.

Lemma load_loop_raising paths out fname e0 :
  (fname, Raise e0) ∈ paths → ∃ e, load_loop ROOT paths out = Raise e.
Proof.
  revert out. induction paths as [|[f content] paths IH]; intros out Hin.
  - by apply elem_of_nil in Hin.
  - rewrite load_loop_cons.
    destruct content as [data|e]; [rewrite bind_ok|rewrite bind_raise; eauto].
    destruct (check_keys _ data REQUIRED) as [[]|e];
      [rewrite bind_ok|rewrite bind_raise; eauto].
    apply elem_of_cons in Hin as [Hin|Hin]; [discriminate|eauto].
Qed.

(** X2.  A matched file that cannot be read or parsed makes [main] raise
    with the file tree unchanged; when every other matched file is a
    dict with the four keys, the exception is the one [read_text] or
    [json.loads] raised, passed on as it is. *)
Theorem unreadable_file_aborts entries fs fname e0 :
  (fname, Raise e0) ∈ entries → ends_with ".json" fname = true →
  (∃ e, main ROOT py_repr entries fs = (Raise e, fs)) ∧
  ((∀ e, e ∈ entries → ends_with ".json" e.1 = true → e.2 = Raise e0 ∨ complete e.2) →
   main ROOT py_repr entries fs = (Raise e0, fs)).
Proof.
  intros Hin Hext.
  assert (Hs : (fname, Raise e0) ∈ sorted (glob_json entries)).
  { apply elem_of_sorted, elem_of_glob_json. done. }
  split.
  - destruct (load_loop_raising _ [] _ _ Hs) as [e He].
    exists e. unfold main, load_recipes. by rewrite He.
  - intros Hall. unfold main, load_recipes.
    rewrite (load_loop_unreadable _ [] e0); [done| |eauto].
    intros e [He1 He2]%elem_of_sorted%elem_of_glob_json. by apply Hall.
Qed.

(** X3.  The loader tests [key in data], so a file holding a JSON array
    that lists the four key names passes the load; [build_recipe_page]
    then raises [TypeError] at [r["slug"]] and nothing is written. *)
Theorem array_passes_validation fs fname l :
  ends_with ".json" fname = true →
  (∀ key, key ∈ REQUIRED → JStr key ∈ l) →
  load_recipes ROOT [(fname, Ok (JArr l))] = Ok [JArr l] ∧
  main ROOT py_repr [(fname, Ok (JArr l))] fs = (Raise TypeError, fs).
Proof.
  intros Hext Hall.
  assert (Hc : ∀ p, check_keys p (JArr l) REQUIRED = Ok tt).
  { intros p.
    assert (Hin : ∀ key, key ∈ REQUIRED → py_in key (JArr l) = Ok true).
    { intros key Hk. cbn. f_equal. apply existsb_exists. exists (JStr key).
      split; [apply list_elem_of_In; auto|]. cbn. apply String.eqb_refl. }
    unfold REQUIRED in *. rewrite !check_keys_cons.
    rewrite !Hin by (rewrite !elem_of_cons; tauto). reflexivity. }
  assert (Hl : load_recipes ROOT [(fname, Ok (JArr l))] = Ok [JArr l]).
  { unfold load_recipes, glob_json. cbn [List.filter fst]. rewrite Hext.
    cbn [sorted foldr insert_sorted]. rewrite load_loop_cons, bind_ok, Hc. reflexivity. }
  split; [done|]. unfold main. rewrite Hl. reflexivity.
Qed.

(** X4.  A matched file holding [null], a boolean or a number makes the
    membership test itself raise [TypeError]; nothing is written. *)
Theorem scalar_file_type_error fs fname data :
  ends_with ".json" fname = true →
  data = JNull ∨ (∃ b, data = JBool b) ∨ (∃ n, data = JNum n) →
  main ROOT py_repr [(fname, Ok data)] fs = (Raise TypeError, fs).
Proof.
  intros Hext Hd. unfold main, load_recipes, glob_json. cbn [List.filter fst].
  rewrite Hext. cbn [sorted foldr insert_sorted].
  rewrite load_loop_cons, bind_ok.
  destruct Hd as [->|[[b ->]|[n ->]]]; reflexivity.
Qed.

Lemma build_recipe_page_cases r fs res fs' :
  build_recipe_page ROOT py_repr r fs = (res, fs') →
  (∃ s n pg, res = Ok tt ∧
      getitem r "slug" = Ok (JStr s) ∧ getitem r "name" = Ok (JStr n) ∧
      render py_repr r = Ok pg ∧
      fs' = <[path_div (path_div (DOCS_DIR ROOT) s) "index.html" := html pg]> fs) ∨
  (∃ e, res = Raise e ∧ fs' = fs).
Proof.
  unfold build_recipe_page. destruct (render py_repr r) as [pg|e] eqn:Hr.
  - destruct (render_inv py_repr r pg Hr) as (Hs & Hn & _ & _ & _ & (et & Ht & _)).
    destruct (slug pg) as [| | |s| |] eqn:Es; cbn; intros E; simplify_eq; eauto.
    destruct (title pg) as [| | |n| |]; try discriminate.
    left. exists s, n, pg. done.
  - intros E. simplify_eq. eauto.
Qed.

(** X5.  When [build_recipe_page] returns, slug and name of the record
    are strings and the file [DOCS_DIR / slug / "index.html"] holds the
    rendered page. *)
Theorem page_written_only_for_strings r fs fs' :
  build_recipe_page ROOT py_repr r fs = (Ok tt, fs') →
  ∃ s n pg,
    getitem r "slug" = Ok (JStr s) ∧ getitem r "name" = Ok (JStr n) ∧
    render py_repr r = Ok pg ∧
    fs' !! path_div (path_div (DOCS_DIR ROOT) s) "index.html" = Some (html pg).
Proof.
  intros Hb.
  destruct (build_recipe_page_cases r fs (Ok tt) fs' Hb)
    as [(s & n & pg & _ & Hs & Hn & Hr & ->)|(e & He & _)]; [|discriminate].
  exists s, n, pg. repeat split; try done. apply lookup_insert_eq.
Qed.

Lemma build_pages_app l1 l2 fs :
  build_pages ROOT py_repr (l1 ++ l2) fs =
  match build_pages ROOT py_repr l1 fs with
  | (Ok _, fs1) => build_pages ROOT py_repr l2 fs1
  | (Raise e, fs1) => (Raise e, fs1)
  end.
Proof.
  revert fs. induction l1 as [|r l1 IH]; intros fs; [done|].
  cbn [app build_pages]. destruct (build_recipe_page ROOT py_repr r fs) as [[[]|e] fs1]; [|done].
  apply IH.
Qed.

(** X6.  The build is fail-fast but not atomic: when the pages of the
    records before [r] have been written and rendering [r] raises, [main]
    raises that exception and the tree stays as those pages left it;
    neither a later record nor the index is processed.  With slugs that
    are single directory names the tree holds, for each slug, the page
    of the last of the earlier records that has it. *)
Theorem render_error_leaves_earlier_pages entries before r after e fs fs1 :
  load_recipes ROOT entries = Ok (before ++ r :: after) →
  build_pages ROOT py_repr before fs = (Ok tt, fs1) →
  render py_repr r = Raise e →
  main ROOT py_repr entries fs = (Raise e, fs1) ∧
  ((∀ r' s, r' ∈ before → getitem r' "slug" = Ok (JStr s) → is_dir_name s) →
   ∀ b1 r' b2 s,
     before = b1 ++ r' :: b2 → getitem r' "slug" = Ok (JStr s) →
     (∀ r'', r'' ∈ b2 → getitem r'' "slug" ≠ Ok (JStr s)) →
     ∃ pg, render py_repr r' = Ok pg ∧
           fs1 !! (DOCS_DIR ROOT ++ [s; "index.html"]) = Some (html pg)).
Proof.
  intros Hl Hb Hr. split.
  - unfold main. rewrite Hl, build_pages_app, Hb.
    cbn [build_pages]. unfold build_recipe_page. by rewrite Hr.
  - intros Hdir b1 r' b2 s Hrec Hs Hafter.
    assert (Hall : ∀ r0, r0 ∈ before →
              ∃ pg s0, render py_repr r0 = Ok pg ∧ slug pg = JStr s0 ∧ is_dir_name s0).
    { intros r0 Hr0.
      destruct (build_pages_returned ROOT py_repr before fs fs1 Hb r0 Hr0)
        as (pg & s0 & Hr' & Hs0).
      exists pg, s0. split; [done|]. split; [done|].
      apply (Hdir r0 s0 Hr0).
      destruct (render_inv py_repr r0 pg Hr') as (G & _). by rewrite G, Hs0. }
    destruct (build_pages_last ROOT py_repr before fs Hall) as (fs1' & Hb' & Hlast & _).
    rewrite Hb in Hb'. injection Hb' as <-.
    assert (Hin : r' ∈ before).
    { rewrite Hrec. apply elem_of_app. right. by left. }
    destruct (Hall r' Hin) as (pg & s0 & Hrender & Hs0 & _).
    assert (s0 = s) as ->.
    { destruct (render_inv py_repr r' pg Hrender) as (G & _).
      rewrite G, Hs0 in Hs. congruence. }
    exists pg. split; [done|]. by eapply Hlast.
Qed.

Lemma build_pages_untouched rs fs p :
  (∀ r s, r ∈ rs → getitem r "slug" = Ok (JStr s) →
          path_div (path_div (DOCS_DIR ROOT) s) "index.html" ≠ p) →
  (build_pages ROOT py_repr rs fs).2 !! p = fs !! p.
Proof.
  revert fs. induction rs as [|r rs IH]; intros fs Hno; [done|].
  cbn [build_pages].
  destruct (build_recipe_page ROOT py_repr r fs) as [res fs1] eqn:Hb.
  apply build_recipe_page_cases in Hb
    as [(s & n & pg & -> & Hs & _ & _ & ->)|(e & -> & ->)].
  - rewrite IH; [|intros r' s' Hr'; apply Hno; by right].
    apply lookup_insert_ne. apply (Hno r s); [by left|done].
  - done.
Qed.

(** X7.  When the slugs of the loaded records are plain names, a file
    below [ROOT], named by plain names, that is neither the index nor
    the page of a loaded record keeps its content through a run: stale
    pages are not removed. *)
Theorem other_files_untouched entries fs rest :
  Forall plain_name rest →
  ROOT ++ rest ≠ DOCS_DIR ROOT ++ ["index.html"] →
  (∀ recipes r s, load_recipes ROOT entries = Ok recipes → r ∈ recipes →
                  getitem r "slug" = Ok (JStr s) →
                  plain_name s ∧ DOCS_DIR ROOT ++ [s; "index.html"] ≠ ROOT ++ rest) →
  (main ROOT py_repr entries fs).2 !! (ROOT ++ rest) = fs !! (ROOT ++ rest).
Proof.
  intros _ Hp Hno. unfold main.
  destruct (load_recipes ROOT entries) as [recipes|e] eqn:Hl; [|done].
  assert (Hu : (build_pages ROOT py_repr recipes fs).2 !! (ROOT ++ rest)
               = fs !! (ROOT ++ rest)).
  { apply build_pages_untouched. intros r s Hr Hs.
    destruct (Hno recipes r s eq_refl Hr Hs) as [[[Hroot Hc] _] Hne].
    unfold path_div at 2. rewrite Hroot, Hc.
    change (path_div (DOCS_DIR ROOT ++ [s]) "index.html")
      with ((DOCS_DIR ROOT ++ [s]) ++ ["index.html"]).
    by rewrite <- app_assoc. }
  destruct (build_pages ROOT py_repr recipes fs) as [[[]|e] fs1]; [|done].
  unfold build_index. destruct (render_index recipes) as [h|e]; [|done].
  cbn. rewrite lookup_insert_ne; done.
Qed.

(** X8.  After a run that returns, [DOCS_DIR/index.html] holds the index
    of the loaded records, the line printed counts one recipe per
    matched file, and a slug without a path component (empty, or a dot)
    names that same file for its page, which the index therefore
    replaces. *)
Theorem index_written_last entries fs line fs' :
  main ROOT py_repr entries fs = (Ok line, fs') →
  ∃ recipes h,
    load_recipes ROOT entries = Ok recipes ∧
    render_index recipes = Ok h ∧
    fs' !! path_div (DOCS_DIR ROOT) "index.html" = Some h ∧
    length recipes = length (glob_json entries) ∧
    line = "Built " +:+ str_int (Z.of_nat (length recipes)) +:+ " recipes into "
           +:+ path_str (DOCS_DIR ROOT) ∧
    (∀ s, root_of s = None → components s = [] →
          page_path ROOT (JStr s) = Ok (path_div (DOCS_DIR ROOT) "index.html")).
Proof.
  unfold main. intros Hm.
  destruct (load_recipes ROOT entries) as [recipes|e] eqn:Hl; [|discriminate].
  destruct (build_pages ROOT py_repr recipes fs) as [[[]|e] fs1]; [|discriminate].
  unfold build_index in Hm. destruct (render_index recipes) as [h|e] eqn:Hh; [|discriminate].
  injection Hm as <- <-. exists recipes, h.
  split; [done|]. split; [done|]. split; [apply lookup_insert_eq|].
  split.
  { unfold load_recipes in Hl. apply load_loop_contents in Hl.
    rewrite <- (sorted_perm (glob_json entries)).
    rewrite <- (length_map Ok recipes), Hl. cbn. by rewrite length_fmap. }
  split; [done|].
  intros s Hr Hc. unfold page_path, path_div at 2. rewrite Hr, Hc, app_nil_r. done.
Qed.
End Runs.


Lemma replace_char_app c rep a b :
  replace_char c rep (a +:+ b) = replace_char c rep a +:+ replace_char c rep b.
Proof.
  induction a as [|x a IH]; [reflexivity|].
  rewrite app_cons_s. cbn [replace_char]. by rewrite IH, app_assoc_s.
Qed.

Lemma escape_app a b : escape (a +:+ b) = escape a +:+ escape b.
Proof. unfold escape. by rewrite !replace_char_app. Qed.

Lemma escape_single c : escape (String c EmptyString) = escape_char c.
Proof. destruct c as [[] [] [] [] [] [] [] []]; reflexivity. Qed.

(** X9.  [html.escape], five replacements in a row, escapes each
    character on its own: the replacements never meet each other's
    output, and escaping distributes over concatenation. *)
Theorem escape_charwise c s :
  escape EmptyString = EmptyString ∧
  escape (String c s) = escape_char c +:+ escape s ∧
  ∀ a b, escape (a +:+ b) = escape a +:+ escape b.
Proof.
  split; [reflexivity|]. split; [|apply escape_app].
  change (String c s) with (String c EmptyString +:+ s).
  by rewrite escape_app, escape_single.
Qed.

Lemma escape_cons c s : escape (String c s) = escape_char c +:+ escape s.
Proof.
  change (String c s) with (String c EmptyString +:+ s).
  by rewrite escape_app, escape_single.
Qed.

(** X10.  An escaped text holds no [<], no [>] and no quote of either
    kind. *)
Theorem escape_output_safe s :
  no_char "<" (escape s) = true ∧ no_char ">" (escape s) = true ∧
  no_char "034" (escape s) = true ∧ no_char "'" (escape s) = true.
Proof.
  induction s as [|c s (H1 & H2 & H3 & H4)]; [by repeat split|].
  rewrite escape_cons, !no_char_app, H1, H2, H3, H4, !andb_true_r.
  destruct c as [[] [] [] [] [] [] [] []]; repeat split; reflexivity.
Qed.

Lemma escape_json_cons c s : escape_json (String c s) = escape_json_char c +:+ escape_json s.
Proof. reflexivity. Qed.

Lemma no_control_app a b : no_control (a +:+ b) = no_control a && no_control b.
Proof.
  induction a as [|x a IH]; [reflexivity|].
  rewrite app_cons_s. cbn [no_control]. by rewrite IH, andb_assoc.
Qed.

(** X11.  A string literal of the serialized structured data holds no
    raw control character below U+0020, a line feed included. *)
Theorem string_literal_has_no_control s : no_control (encode_basestring s) = true.
Proof.
  unfold encode_basestring. rewrite !no_control_app.
  assert (no_control (escape_json s) = true) as ->; [|reflexivity].
  induction s as [|c s IH]; [reflexivity|].
  rewrite escape_json_cons, no_control_app, IH, andb_true_r.
  destruct c as [[] [] [] [] [] [] [] []]; reflexivity.
Qed.

Lemma clean_none_cons k v d :
  clean_none ((k, v) :: d) = if kept v then (k, v) :: clean_none d else clean_none d.
Proof. reflexivity. Qed.

Lemma kept_iff x : kept x = true ↔ x ≠ JNull ∧ x ≠ JStr "".
Proof.
  split; [apply kept_spec|].
  intros [H1 H2]. destruct x as [| | |[|]| |]; try reflexivity; congruence.
Qed.

Lemma clean_none_sublist d : sublist (clean_none d) d.
Proof.
  induction d as [|[k v] d IH]; [constructor|].
  rewrite clean_none_cons. destruct (kept v); by constructor.
Qed.

(** X12.  [clean_none] keeps the items in order and drops exactly those
    whose value is [None] or the empty string (zero, [False] and empty
    lists stay); cleaning twice changes nothing more. *)
Theorem clean_none_drops_only_none_and_empty d :
  (∀ k x, (k, x) ∈ clean_none d ↔ (k, x) ∈ d ∧ x ≠ JNull ∧ x ≠ JStr "") ∧
  sublist (clean_none d) d ∧
  clean_none (clean_none d) = clean_none d.
Proof.
  split; [|split].
  - intros k x. unfold clean_none. rewrite !list_elem_of_In, filter_In. cbn.
    by rewrite kept_iff.
  - apply clean_none_sublist.
  - induction d as [|[k v] d IH]; [reflexivity|].
    rewrite clean_none_cons. destruct (kept v) eqn:Hv; [|done].
    by rewrite clean_none_cons, Hv, IH.
Qed.

Section PageFields.
Variable ROOT : Path.
Variable py_repr : json -> string.

(** X13.  The import link, the one field put into the page without
    [escape], never holds a quote, [<] or [>], whatever the slug. *)
Theorem import_link_needs_no_escaping r pg :
  render py_repr r = Ok pg →
  no_char "034" (bring_link pg) = true ∧ no_char "'" (bring_link pg) = true ∧
  no_char "<" (bring_link pg) = true ∧ no_char ">" (bring_link pg) = true.
Proof.
  intros Hr. destruct (render_inv py_repr r pg Hr) as (_ & _ & -> & _).
  rewrite !no_char_app, !no_char_quote by reflexivity. by repeat split.
Qed.

(** X14.  The structured-data object always starts with [@context] and
    [@type], and its keys are a subsequence of the seven keys of the
    dict literal, in its order. *)
Theorem jsonld_keys_in_order r pg :
  render py_repr r = Ok pg →
  sublist (jsonld_obj pg).*1 JSONLD_KEYS ∧
  ∃ rest, jsonld_obj pg
          = ("@context", JStr "https://schema.org") :: ("@type", JStr "Recipe") :: rest.
Proof.
  intros Hr.
  destruct (render_inv py_repr r pg Hr) as (_ & _ & _ & (y & i & ins & st & _ & _ & _ & _ & ->) & _).
  split.
  - match goal with |- context [clean_none ?d] =>
      change JSONLD_KEYS with (d.*1);
      apply fmap_sublist;
      apply clean_none_sublist
    end.
  - rewrite !clean_none_cons. cbn [kept String.eqb Ascii.eqb Bool.eqb negb]. eauto.
Qed.
End PageFields.


Lemma index0_ends : ∃ p, index_lit 0 = p +:+ INDEX_UL_OPEN.
Proof. ends_with_literal (index_lit 0) INDEX_UL_OPEN. Qed.
Lemma index1_starts : ∃ q, index_lit 1 = INDEX_UL_CLOSE +:+ q.
Proof. starts_with_literal (index_lit 1) INDEX_UL_CLOSE. Qed.
Lemma lit0_ends : ∃ p, html_lit 0 = p +:+ TITLE_OPEN.
Proof. ends_with_literal (html_lit 0) TITLE_OPEN. Qed.
Lemma lit1_starts : ∃ q, html_lit 1 = "</title>" +:+ q.
Proof. starts_with_literal (html_lit 1) "</title>". Qed.
Lemma lit1_ends : ∃ p, html_lit 1 = p +:+ DESC_OPEN.
Proof. ends_with_literal (html_lit 1) DESC_OPEN. Qed.
Lemma lit2_starts : ∃ q, html_lit 2 = (dq +:+ ">") +:+ q.
Proof. starts_with_literal (html_lit 2) (dq +:+ ">"). Qed.
Lemma lit3_ends : ∃ p, html_lit 3 = p +:+ H1_OPEN.
Proof. ends_with_literal (html_lit 3) H1_OPEN. Qed.
Lemma lit4_starts : ∃ q, html_lit 4 = "</h1>" +:+ q.
Proof. starts_with_literal (html_lit 4) "</h1>". Qed.

Section PageText.
Variable ROOT : Path.
Variable py_repr : json -> string.

Lemma map_result_index_link rs sns :
  Forall2 has_slug_and_name rs sns → map_result index_link rs = Ok (map index_line sns).
Proof.
  induction 1 as [|r sn rs sns (Hs & Hn) _ IH]; [reflexivity|].
  cbn [map_result map]. rewrite IH. unfold index_link. rewrite Hs, Hn. reflexivity.
Qed.

(** X15.  For records whose slug and name are strings, whatever else
    they hold, the index page holds, between [<ul>] and [</ul>], one
    link line per record, in the order of the list, with the escaped
    slug in the [href] and the escaped name as text. *)
Theorem index_lists_links_in_order rs sns :
  Forall2 has_slug_and_name rs sns →
  ∃ h pre post,
    render_index rs = Ok h ∧
    h = pre +:+ INDEX_UL_OPEN +:+ String.concat nl (map index_line sns)
        +:+ INDEX_UL_CLOSE +:+ post.
Proof.
  intros Hv. unfold render_index. rewrite (map_result_index_link rs sns Hv).
  rewrite bind_ok, format_index.
  destruct index0_ends as [p Hp]. destruct index1_starts as [q Hq].
  exists (index_lit 0 +:+ String.concat nl (map index_line sns) +:+ index_lit 1), p, q.
  split; [done|]. rewrite Hp, Hq, !app_assoc_s. done.
Qed.

(** X16.  The escaped name is the [<title>] and the [<h1>] of the page,
    and the description is [Privates Rezept: ] and the name, escaped. *)
Theorem title_shown_escaped r v :
  represents r v →
  ∃ pg,
    render py_repr r = Ok pg ∧
    occurs_in (TITLE_OPEN +:+ escape (r_name v) +:+ "</title>") (html pg) ∧
    occurs_in (DESC_OPEN +:+ escape ("Privates Rezept: " +:+ r_name v) +:+ (dq +:+ ">"))
              (html pg) ∧
    occurs_in (H1_OPEN +:+ escape (r_name v) +:+ "</h1>") (html pg).
Proof.
  intros Hv.
  destruct (render_represents py_repr r v Hv)
    as (pg & Hr & _ & _ & _ & _ & _ & _ & _ & _ & _ & _ & Hh).
  exists pg. split; [done|]. rewrite Hh. split; [|split].
  - destruct lit0_ends as [p Hp]. destruct lit1_starts as [q Hq].
    by eapply occurs_in_between.
  - do 2 apply occurs_in_app_r.
    destruct lit1_ends as [p Hp]. destruct lit2_starts as [q Hq].
    by eapply occurs_in_between.
  - do 6 apply occurs_in_app_r.
    destruct lit3_ends as [p Hp]. destruct lit4_starts as [q Hq].
    by eapply occurs_in_between.
Qed.

Lemma render_inv_items r pg :
  render py_repr r = Ok pg →
  ∃ ingredients instructions xs ys lis_x lis_y,
    getitem r "ingredients" = Ok ingredients ∧ py_iter ingredients = Ok xs ∧
    map_result li_of xs = Ok lis_x ∧ ingredients_html pg = String.concat nl lis_x ∧
    getitem r "instructions" = Ok instructions ∧ py_iter instructions = Ok ys ∧
    map_result li_of ys = Ok lis_y ∧ instructions_html pg = String.concat nl lis_y.
Proof.
  unfold render. intros Hr.
  repeat invert_bind Hr.
  injection Hr as <-.
  cbn [ingredients_html instructions_html].
  repeat match goal with
  | H1 : py_iter ?a = Ok ?x, H2 : py_iter ?a = Ok ?y |- _ =>
      rewrite H1 in H2; injection H2 as <-
  end.
  eexists _, _, _, _, _, _. repeat split; eauto.
Qed.

Lemma map_result_li_of (xs : list string) : map_result li_of (map JStr xs) = Ok (map li xs).
Proof. exact (map_result_li xs). Qed.

(** X17.  An [ingredients] value that is a string is accepted: the loop
    runs over its characters and the page lists one [<li>] per
    character. *)
Theorem string_items_split_into_characters r pg s :
  render py_repr r = Ok pg →
  getitem r "ingredients" = Ok (JStr s) →
  ingredients_html pg = String.concat nl (map li (code_points s)).
Proof.
  intros Hr Hs.
  destruct (render_inv_items r pg Hr)
    as (i & _ & xs & _ & lx & _ & Hi & Hx & Hl & -> & _).
  rewrite Hs in Hi. injection Hi as <-. cbn in Hx. injection Hx as <-.
  rewrite map_result_li_of in Hl. by injection Hl as <-.
Qed.

(** X18.  When [ingredients] is a list and the page renders, every
    element is a string and the list on the page has their [<li>]
    lines in order. *)
Theorem items_must_be_strings r pg l :
  render py_repr r = Ok pg →
  getitem r "ingredients" = Ok (JArr l) →
  ∃ xs, l = map JStr xs ∧ ingredients_html pg = String.concat nl (map li xs).
Proof.
  intros Hr Hs.
  destruct (render_inv_items r pg Hr)
    as (i & _ & xs & _ & lx & _ & Hi & Hx & Hl & -> & _).
  rewrite Hs in Hi. injection Hi as <-. cbn in Hx. injection Hx as <-.
  clear Hr Hs. revert lx Hl. induction l as [|x l IH]; intros lx Hl.
  - exists []. cbn in Hl. by injection Hl as <-.
  - cbn [map_result] in Hl.
    destruct (map_result li_of l) as [lis|e] eqn:El;
      destruct x as [| | |sx| |]; try discriminate Hl.
    cbn in Hl. injection Hl as <-.
    destruct (IH lis eq_refl) as (xs & -> & Hc).
    exists (sx :: xs). split; [done|].
    rewrite map_result_li_of in El. by injection El as <-.
Qed.
End PageText.


Lemma splitlines_aux_cons cur c s' :
  splitlines_aux cur (String c s') =
  match s' with
  | String c1 s1 =>
      if (nat_of_ascii c =? 13) && (nat_of_ascii c1 =? 10)
      then cur :: splitlines_aux "" s1
      else if (nat_of_ascii c =? 194) && (nat_of_ascii c1 =? 133)
      then cur :: splitlines_aux "" s1
      else
        match s1 with
        | String c2 s2 =>
            if (nat_of_ascii c =? 226) && (nat_of_ascii c1 =? 128)
               && ((nat_of_ascii c2 =? 168) || (nat_of_ascii c2 =? 169))
            then cur :: splitlines_aux "" s2
            else if is_break c then cur :: splitlines_aux "" s'
            else splitlines_aux (cur +:+ String c EmptyString) s'
        | _ =>
            if is_break c then cur :: splitlines_aux "" s'
            else splitlines_aux (cur +:+ String c EmptyString) s'
        end
  | _ =>
      if is_break c then cur :: splitlines_aux "" s'
      else splitlines_aux (cur +:+ String c EmptyString) s'
  end.
Proof. destruct s' as [|c1 [|c2 s2]]; reflexivity. Qed.

Lemma splitlines_aux_step cur c s' :
  other_break c s' = false →
  splitlines_aux cur (String c s') =
  if nat_of_ascii c =? 10 then cur :: splitlines_aux "" s'
  else splitlines_aux (cur +:+ String c EmptyString) s'.
Proof.
  unfold other_break. cbv zeta. intros Hb. rewrite splitlines_aux_cons.
  destruct s' as [|c1 [|c2 s2]]; unfold is_break; cbv zeta;
    repeat match goal with
           | H : _ || _ = false |- _ => apply orb_false_iff in H as [? ?]
           end;
    repeat match goal with H : false = false |- _ => clear H end;
    repeat match goal with H : _ = false |- _ => rewrite ?H; clear H end;
    cbn [andb orb]; rewrite ?orb_false_r; reflexivity.
Qed.

Lemma concat_cons sep x xs :
  String.concat sep (x :: xs) =
  match xs with [] => x | _ => x +:+ sep +:+ String.concat sep xs end.
Proof. reflexivity. Qed.

Lemma replace_char_cons c rep a s :
  replace_char c rep (String a s) =
  (if Ascii.eqb a c then rep else String a EmptyString) +:+ replace_char c rep s.
Proof. reflexivity. Qed.

Lemma eqb_lf c : Ascii.eqb c "010" = (nat_of_ascii c =? 10).
Proof. destruct c as [[] [] [] [] [] [] [] []]; reflexivity. Qed.

Lemma prefixed_lines p s cur :
  lf_only s = true →
  (cur ≠ "" ∧ s = "") ∨ ends_in_text s = true →
  splitlines_aux cur s ≠ [] ∧
  String.concat nl (map (λ line, p +:+ line) (splitlines_aux cur s))
  = p +:+ cur +:+ replace_char "010" (nl +:+ p) s.
Proof.
  revert cur. induction s as [|c s IH]; intros cur Hlf Hend.
  - destruct Hend as [[Hc _]|?]; [|discriminate].
    cbn [splitlines_aux]. destruct (String.eqb_spec cur ""); [done|].
    split; [done|]. cbn. by rewrite app_nil_r_s.
  - cbn [lf_only] in Hlf. apply andb_true_iff in Hlf as [Hb Hlf].
    apply negb_true_iff in Hb.
    rewrite (splitlines_aux_step cur c s Hb), replace_char_cons, eqb_lf.
    assert (Hend' : ∀ cur', (nat_of_ascii c =? 10) = false ∨ cur' = "" → 
              (cur' = "" → (nat_of_ascii c =? 10) = true) →
              (cur' ≠ "" ∧ s = "") ∨ ends_in_text s = true).
    { intros cur' Hor Himp. destruct Hend as [[_ ?]|He]; [discriminate|].
      destruct s as [|c' s']; [|by right].
      cbn in He. apply negb_true_iff in He. left. split; [|done].
      intros ->. rewrite Himp in He; done. }
    destruct (nat_of_ascii c =? 10) eqn:Hc.
    + destruct (IH "" Hlf) as [Hne Heq].
      { apply (Hend' ""); [by right|done]. }
      split; [done|]. cbn [map]. rewrite concat_cons.
      destruct (map _ (splitlines_aux "" s)) eqn:Hm.
      { by apply map_eq_nil in Hm. }
      rewrite Heq, !app_assoc_s. done.
    + destruct (IH (cur +:+ String c EmptyString) Hlf) as [Hne Heq].
      { apply Hend'; [by left|]. intros E. by destruct cur. }
      split; [done|]. rewrite Heq, !app_assoc_s. done.
Qed.

Lemma replace_char_same c s : replace_char c (String c EmptyString) s = s.
Proof.
  induction s as [|a s IH]; [reflexivity|].
  rewrite replace_char_cons, IH. by destruct (Ascii.eqb a c) eqn:E;
    [apply Ascii.eqb_eq in E as ->|].
Qed.

(** X19.  For a text whose only line boundary is the line feed and that
    does not end with one, splitting into lines and joining them again
    gives the text back, and the re-indentation of the structured data
    puts two spaces at the start of the text and after each line
    feed. *)
Theorem reindent_keeps_text s :
  lf_only s = true → ends_in_text s = true →
  String.concat nl (splitlines s) = s ∧
  indent_lines s = "  " +:+ replace_char "010" (nl +:+ "  ") s.
Proof.
  intros Hlf Hend. split.
  - destruct (prefixed_lines "" s "" Hlf (or_intror Hend)) as [_ Heq].
    rewrite <- (map_id (splitlines s)).
    unfold splitlines. erewrite map_ext; [rewrite Heq|done].
    rewrite !app_nil_l_s. apply replace_char_same.
  - destruct (prefixed_lines "  " s "" Hlf (or_intror Hend)) as [_ Heq].
    exact Heq.
Qed.


(** ** The further properties at sample inputs *)

Lemma load_order_witness :
  load_recipes sample_root [("b.json", Ok stew_json); ("a.json", Ok soup_json)]
    = Ok [soup_json; stew_json] ∧
  ∃ loaded : list (string * result json),
    map Ok [soup_json; stew_json] = loaded.*2 ∧
    StronglySorted (λ a b, name_le a.1 b.1) loaded.
Proof.
  split; [vm_compute; reflexivity|].
  destruct (load_order sample_root [("b.json", Ok stew_json); ("a.json", Ok soup_json)]
              [soup_json; stew_json]) as (loaded & Hc & _ & Hs).
  - vm_compute; reflexivity.
  - exists loaded. split; assumption.
Defined.

Lemma unreadable_file_witness :
  main sample_root sample_repr [("a.json", Ok soup_json); ("b.json", Raise InputError)] ∅
  = (Raise InputError, ∅).
Proof.
  refine (proj2 (unreadable_file_aborts sample_root sample_repr
                   [("a.json", Ok soup_json); ("b.json", Raise InputError)] ∅
                   "b.json" InputError _ _) _).
  - apply elem_of_cons. right. apply elem_of_cons. left. reflexivity.
  - reflexivity.
  - intros e He _.
    apply elem_of_cons in He as [->|He];
      [|apply elem_of_cons in He as [->|He]; [|by apply elem_of_nil in He]].
    + right. eexists. split; [reflexivity|].
      intros key Hk. unfold REQUIRED in Hk.
      repeat (apply elem_of_cons in Hk as [->|Hk]; [eexists; reflexivity|]).
      by apply elem_of_nil in Hk.
    + left. reflexivity.
Defined.

Lemma array_passes_witness :
  main sample_root sample_repr
       [("list.json", Ok (JArr [JStr "slug"; JStr "name"; JStr "ingredients";
                                JStr "instructions"]))] ∅
  = (Raise TypeError, ∅).
Proof.
  refine (proj2 (array_passes_validation sample_root sample_repr ∅ "list.json" _ _ _)).
  - reflexivity.
  - intros key Hk. unfold REQUIRED in Hk. rewrite !elem_of_cons in Hk. rewrite !elem_of_cons.
    destruct Hk as [->|[->|[->|[->|Hk]]]]; [tauto..|by apply elem_of_nil in Hk].
Defined.

Lemma scalar_file_witness :
  main sample_root sample_repr [("n.json", Ok (JNum 7))] ∅ = (Raise TypeError, ∅).
Proof.
  apply scalar_file_type_error; [reflexivity|]. right. right. by exists 7%Z.
Defined.

Lemma soup_page_built :
  ∃ pg, render sample_repr soup_json = Ok pg ∧
        build_recipe_page sample_root sample_repr soup_json ∅
        = (Ok tt, <[DOCS_DIR sample_root ++ ["suppe"; "index.html"] := html pg]> ∅).
Proof.
  destruct (render_represents sample_repr soup_json soup) as (pg & Hr & Hs & _).
  { repeat split; reflexivity. }
  exists pg. split; [exact Hr|]. unfold build_recipe_page. rewrite Hr, Hs. reflexivity.
Qed.

Lemma page_written_witness :
  ∃ fs' s n pg,
    build_recipe_page sample_root sample_repr soup_json ∅ = (Ok tt, fs') ∧
    getitem soup_json "slug" = Ok (JStr s) ∧ getitem soup_json "name" = Ok (JStr n) ∧
    render sample_repr soup_json = Ok pg ∧
    fs' !! path_div (path_div (DOCS_DIR sample_root) s) "index.html" = Some (html pg).
Proof.
  destruct soup_page_built as (pg0 & _ & Hb).
  destruct (page_written_only_for_strings sample_root sample_repr soup_json ∅ _ Hb)
    as (s & n & pg & Hs & Hn & Hr & Hp).
  eexists _, s, n, pg. split; [exact Hb|]. repeat split; assumption.
Defined.

Lemma soup_pages_built :
  ∃ fs1, build_pages sample_root sample_repr [soup_json] ∅ = (Ok tt, fs1).
Proof.
  destruct soup_page_built as (pg & _ & Hb). cbn [build_pages]. rewrite Hb. eauto.
Qed.

Lemma render_error_witness :
  ∃ fs1,
    build_pages sample_root sample_repr [soup_json] ∅ = (Ok tt, fs1) ∧
    main sample_root sample_repr [("a.json", Ok soup_json); ("b.json", Ok null_record)] ∅
      = (Raise TypeError, fs1).
Proof.
  destruct soup_pages_built as (fs1 & Hb).
  exists fs1. split; [exact Hb|].
  refine (proj1 (render_error_leaves_earlier_pages sample_root sample_repr
                   [("a.json", Ok soup_json); ("b.json", Ok null_record)]
                   [soup_json] null_record [] TypeError ∅ fs1 _ Hb _)).
  - vm_compute; reflexivity.
  - vm_compute; reflexivity.
Defined.

Lemma other_files_witness :
  (main sample_root sample_repr [("a.json", Ok soup_json)] {[stale_path := "old"]}).2
    !! stale_path = Some "old".
Proof.
  change stale_path with (sample_root ++ ["docs"; "alt"; "index.html"]).
  rewrite (other_files_untouched sample_root sample_repr [("a.json", Ok soup_json)]
             {[sample_root ++ ["docs"; "alt"; "index.html"] := "old"]}
             ["docs"; "alt"; "index.html"]).
  - apply lookup_singleton_eq.
  - repeat constructor; discriminate.
  - vm_compute. discriminate.
  - intros recipes r s Hl Hr Hs.
    assert (recipes = [soup_json]) as ->
      by (vm_compute in Hl; injection Hl as <-; reflexivity).
    apply elem_of_cons in Hr as [->|Hr]; [|by apply elem_of_nil in Hr].
    vm_compute in Hs. injection Hs as <-.
    split; [repeat split; [reflexivity..|discriminate]|]. vm_compute. discriminate.
Defined.

Lemma soup_run_returns :
  ∃ line fs', main sample_root sample_repr [("a.json", Ok soup_json)] ∅ = (Ok line, fs').
Proof.
  assert (Hl : load_recipes sample_root [("a.json", Ok soup_json)] = Ok [soup_json])
    by (vm_compute; reflexivity).
  assert (Hall : ∀ r, r ∈ [soup_json] →
            ∃ pg s, render sample_repr r = Ok pg ∧ slug pg = JStr s ∧ is_dir_name s).
  { intros r Hr. apply elem_of_cons in Hr as [->|Hr]; [|by apply elem_of_nil in Hr].
    destruct (render_represents sample_repr soup_json soup) as (pg & Hr & Hs & _).
    { repeat split; reflexivity. }
    exists pg, "suppe". repeat split; try assumption; reflexivity. }
  unfold main. rewrite Hl.
  destruct (build_pages_last sample_root sample_repr [soup_json] ∅ Hall) as (fs1 & -> & _).
  destruct (render_index_ok sample_repr [soup_json] Hall) as [h Hh].
  unfold build_index. rewrite Hh. eauto.
Qed.

Lemma index_written_witness :
  ∃ line fs' h,
    main sample_root sample_repr [("a.json", Ok soup_json)] ∅ = (Ok line, fs') ∧
    fs' !! (DOCS_DIR sample_root ++ ["index.html"]) = Some h ∧
    line = "Built 1 recipes into /srv/bring-recipes/docs".
Proof.
  destruct soup_run_returns as (line & fs' & E).
  destruct (index_written_last sample_root sample_repr _ _ _ _ E)
    as (recipes & h & Hl & _ & Hi & Hn & Hline & _).
  exists line, fs', h. split; [exact E|]. split; [exact Hi|].
  rewrite Hline, Hn. reflexivity.
Defined.

Lemma index_links_witness :
  Forall2 has_slug_and_name [soup_json; stew_json] [("suppe", "Suppe"); ("suppe", "Eintopf")] ∧
  ∃ h pre post,
    render_index [soup_json; stew_json] = Ok h ∧
    h = pre +:+ INDEX_UL_OPEN
        +:+ String.concat nl [index_line ("suppe", "Suppe"); index_line ("suppe", "Eintopf")]
        +:+ INDEX_UL_CLOSE +:+ post.
Proof.
  assert (Hf : Forall2 has_slug_and_name [soup_json; stew_json]
                 [("suppe", "Suppe"); ("suppe", "Eintopf")]).
  { repeat constructor; reflexivity. }
  split; [exact Hf|].
  exact (index_lists_links_in_order [soup_json; stew_json] _ Hf).
Defined.

Lemma title_shown_witness :
  represents soup_json soup ∧
  ∃ pg, render sample_repr soup_json = Ok pg ∧
        occurs_in (H1_OPEN +:+ escape "Suppe" +:+ "</h1>") (html pg).
Proof.
  split; [repeat split; reflexivity|].
  destruct (title_shown_escaped sample_repr soup_json soup) as (pg & Hr & _ & _ & Hh).
  { repeat split; reflexivity. }
  exists pg. split; assumption.
Defined.

Lemma import_link_quotes_witness :
  ∃ pg, render sample_repr soup_json = Ok pg ∧ no_char "034" (bring_link pg) = true.
Proof.
  destruct (render_represents sample_repr soup_json soup) as (pg & Hr & _).
  { repeat split; reflexivity. }
  exists pg. split; [exact Hr|].
  exact (proj1 (import_link_needs_no_escaping sample_repr soup_json pg Hr)).
Defined.

Lemma jsonld_keys_witness :
  ∃ pg, render sample_repr soup_json = Ok pg ∧ sublist (jsonld_obj pg).*1 JSONLD_KEYS.
Proof.
  destruct (render_represents sample_repr soup_json soup) as (pg & Hr & _).
  { repeat split; reflexivity. }
  exists pg. split; [exact Hr|].
  exact (proj1 (jsonld_keys_in_order sample_repr soup_json pg Hr)).
Defined.

Lemma letters_render : ∃ pg, render sample_repr letters_json = Ok pg.
Proof. eexists. vm_compute. reflexivity. Qed.

Lemma string_items_witness :
  ∃ pg, render sample_repr letters_json = Ok pg ∧
        ingredients_html pg = String.concat nl [li "a"; li "b"].
Proof.
  destruct letters_render as (pg & E).
  exists pg. split; [exact E|].
  exact (string_items_split_into_characters sample_repr letters_json pg "ab" E eq_refl).
Defined.

Lemma items_strings_witness :
  ∃ pg xs, render sample_repr soup_json = Ok pg ∧
           [JStr "1 Zwiebel"; JStr "Salz & Pfeffer"] = map JStr xs ∧
           ingredients_html pg = String.concat nl (map li xs).
Proof.
  destruct (render_represents sample_repr soup_json soup) as (pg & Hr & _).
  { repeat split; reflexivity. }
  destruct (items_must_be_strings sample_repr soup_json pg _ Hr eq_refl) as (xs & Hx & Hh).
  exists pg, xs. repeat split; assumption.
Defined.

Lemma reindent_witness :
  lf_only (dumps (JObj [("name", JStr "Tee")])) = true ∧
  String.concat nl (splitlines (dumps (JObj [("name", JStr "Tee")])))
  = dumps (JObj [("name", JStr "Tee")]).
Proof.
  split; [reflexivity|].
  refine (proj1 (reindent_keeps_text (dumps (JObj [("name", JStr "Tee")])) _ _));
    reflexivity.
Defined.

